(** * The APNS pusher: a shallow embedding of [pusher/apns.go]

    The Go methods of [APNSPusher] are translated to Rocq functions.
    The struct is a record and a method that mutates its receiver returns
    the updated record.  Calls that leave the package (the logger, the
    queue, the signal package, the sinks) are recorded as events of a
    trace, in program order, so that ordering and counting properties of
    [Start] and [reportGoStats] become properties of lists. *)

From Stdlib Require Import ZArith Lia.
From stdpp Require Import base option list strings gmap.

Local Open Scope Z_scope.

(** ** Go base types *)

Module Go.

(** Go's [error]: [None] is the nil error, [Some msg] an error whose
    [Error()] text is [msg]. *)
Definition error : Type := option string.

(** A Go slice is either nil or a sequence of elements; [range] over a
    nil slice runs zero iterations. *)
Inductive slice (A : Type) : Type :=
| nil_slice
| mk_slice (xs : list A).
Arguments nil_slice {A}.
Arguments mk_slice {A} xs.

Definition elems {A} (s : slice A) : list A :=
  match s with
  | nil_slice => []
  | mk_slice xs => xs
  end.

Definition is_nil {A} (s : slice A) : bool :=
  match s with
  | nil_slice => true
  | mk_slice _ => false
  end.

(** [int] and [int64] (and so [time.Duration]) are 64-bit two's
    complement; [uint32] wraps at 2^32. *)
Definition wrap64 (z : Z) : Z := (z + 2 ^ 63) mod 2 ^ 64 - 2 ^ 63.
Definition wrapU32 (z : Z) : Z := z mod 2 ^ 32.

(** A value of Go's [int] (64 bits): an integer in the range of the
    type. *)
Record int : Type := {
  int_val : Z;
  int_ok : (- 2 ^ 63 <=? int_val) && (int_val <? 2 ^ 63) = true
}.

(** The untyped constant [10] as an [int]. *)
Definition int_10 : int := {| int_val := 10; int_ok := eq_refl |}.

(** [time.Duration] counts nanoseconds in an [int64]. *)
Definition Duration : Type := Z.
Definition Nanosecond : Duration := 1.
Definition Second : Duration := 1000000000 * Nanosecond.
Definition Duration_of_int (i : Z) : Duration := wrap64 i.
Definition Duration_mul (a b : Duration) : Duration := wrap64 (a * b).

(** The signals [Start] registers with [signal.Notify]: [os.Interrupt]
    is [syscall.SIGINT], registered twice, and [syscall.SIGTERM]. *)
Inductive Signal : Type := SIGINT | SIGTERM.
Definition os_Interrupt : Signal := SIGINT.

(** [runtime.MemStats], the fields [reportGoStats] reads.  [PauseNs]
    is a [[256]uint64] array and [NumGC] a [uint32]. *)
Record MemStats : Type := {
  Alloc : Z;
  HeapObjects : Z;
  NextGC : Z;
  NumGC : Z;
  PauseNs : list Z
}.

(** [arr[i]] on a 256-entry array; the index expressions of this
    program are reduced modulo 256 and so never leave the array. *)
Definition index (arr : list Z) (i : Z) : Z :=
  default 0 (arr !! Z.to_nat i).

(** What one iteration of the stats loop reads from the runtime:
    [runtime.NumGoroutine()] and [runtime.ReadMemStats]. *)
Record Runtime : Type := {
  NumGoroutine : Z;
  ReadMemStats : MemStats
}.

End Go.
Import Go.

(** ** viper *)

Module Viper.

(** A viper instance as far as this program uses it.  viper folds the
    case of every key, with [strings.ToLower]: both maps are keyed by
    folded keys.  [settings] has, for each key that a source of higher
    priority than the defaults gives (here the configuration file), the
    [int] that [GetInt] makes of its value; [defaults] has the
    defaults that were set, which in this program are [int]s. *)
Record Config : Type := {
  settings : gmap string int;
  defaults : gmap string int
}.

(** [SetDefault]; [ToLower] is Go's [strings.ToLower]. *)
Definition SetDefault (ToLower : string -> string)
    (key : string) (v : int) (c : Config) : Config :=
  {| settings := settings c;
     defaults := <[ToLower key := v]> (defaults c) |}.

(** [GetInt]: the configured value, else the default, else 0. *)
Definition GetInt (ToLower : string -> string)
    (key : string) (c : Config) : Z :=
  match settings c !! ToLower key with
  | Some v => int_val v
  | None =>
      match defaults c !! ToLower key with
      | Some v => int_val v
      | None => 0
      end
  end.

End Viper.

(** ** The interfaces package *)

Module Interfaces.

(** A [*logrus.Logger], by the name of the logger it points to.  The
    nil pointer has no counterpart here: what is stated of [Start] is
    stated of calls on a struct that holds a logger. *)
Definition Logger : Type := string.
Definition DB : Type := string.
Definition APNSPushQueue : Type := string.
Definition WaitGroup : Type := string.
Definition MessagesChannel : Type := string.
Definition MessageHandler : Type := string.

(** [interfaces.Queue]: the two getters are fields, [ConsumeLoop] and
    [StopConsuming] are calls that show as events. *)
Record Queue : Type := {
  queue_name : string;
  Queue_MessagesChannel : MessagesChannel;
  Queue_PendingMessagesWaitGroup : WaitGroup
}.

Section Sinks.
Context {W : Type}.

(** The sinks act on the state [W] of the world outside the pusher
    (stores, brokers, metric backends).  [ReportGoStats] has no
    result; the other two return an [error]. *)
Record StatsReporter : Type := {
  ReportGoStats : Z -> Z -> Z -> Z -> Z -> W -> W
}.

Record FeedbackReporter : Type := {
  SendFeedback : string -> W -> error * W
}.

Record InvalidTokenHandler : Type := {
  HandleToken : string -> W -> error * W
}.

(** The arguments of [extensions.NewAPNSMessageHandler], in the
    order of its parameters. *)
Record MessageHandlerArgs : Type := {
  mh_configFile : string;
  mh_certificatePath : string;
  mh_appName : string;
  mh_isProduction : bool;
  mh_logger : Logger;
  mh_pendingMessagesWG : WaitGroup;
  mh_statsReporters : slice StatsReporter;
  mh_feedbackReporters : slice FeedbackReporter;
  mh_invalidTokenHandlers : slice InvalidTokenHandler;
  mh_pushQueue : option APNSPushQueue
}.
End Sinks.
Arguments StatsReporter : clear implicits.
Arguments FeedbackReporter : clear implicits.
Arguments InvalidTokenHandler : clear implicits.
Arguments MessageHandlerArgs : clear implicits.

End Interfaces.
Import Interfaces.

(** ** Traces *)

Module Trace.

(** The four goroutines [Start] launches. *)
Inductive Task : Type :=
| HandleMessages (h : MessageHandler) (ch : MessagesChannel)
| HandleResponses (h : MessageHandler)
| ConsumeLoop (q : string)
| ReportGoStatsLoop.

(** What the program does that is visible outside it, and the writes
    to the [run] flag.  Sink calls carry the position of the sink in
    its slice. *)
Inductive Event : Type :=
| SetRun (b : bool)
| LogInfo (fields : list (string * string)) (msg : string)
| LogWarnf (fmt : string) (sig : Signal)
| LogError (err : string)
| GoStmt (t : Task)
| SignalNotify (sigs : list Signal)
| StopConsuming (q : string)
| GracefulShutdown (wg : WaitGroup) (timeout : Duration)
| ReportGoStatsCall (i : nat) (numGoRoutines allocatedAndNotFreed
                               heapObjects nextGCBytes pauseGCNano : Z)
| Sleep (d : Duration)
| HandleTokenCall (i : nat) (token : string) (err : Go.error)
| SendFeedbackCall (i : nat) (payload : string) (err : Go.error).

(** What happens around the goroutine that runs [Start] while it
    waits: a registered signal is delivered on [sigchan], or the
    goroutine running the queue's [ConsumeLoop] returns. *)
Inductive Happening : Type :=
| SignalDelivered (sig : Signal)
| ConsumeLoopExited (err : Go.error).

Inductive TaskKind : Type :=
| KHandleMessages | KHandleResponses | KConsumeLoop | KReportGoStats.

Definition kind_of (t : Task) : TaskKind :=
  match t with
  | HandleMessages _ _ => KHandleMessages
  | HandleResponses _ => KHandleResponses
  | ConsumeLoop _ => KConsumeLoop
  | ReportGoStatsLoop => KReportGoStats
  end.

Definition kind_eqb (k1 k2 : TaskKind) : bool :=
  match k1, k2 with
  | KHandleMessages, KHandleMessages
  | KHandleResponses, KHandleResponses
  | KConsumeLoop, KConsumeLoop
  | KReportGoStats, KReportGoStats => true
  | _, _ => false
  end.

Definition launches (k : TaskKind) (e : Event) : bool :=
  match e with
  | GoStmt t => kind_eqb k (kind_of t)
  | _ => false
  end.

Definition is_launch (e : Event) : bool :=
  match e with GoStmt _ => true | _ => false end.

Definition is_notify (e : Event) : bool :=
  match e with SignalNotify _ => true | _ => false end.

Definition is_stop (e : Event) : bool :=
  match e with StopConsuming _ => true | _ => false end.

Definition is_drain (e : Event) : bool :=
  match e with GracefulShutdown _ _ => true | _ => false end.

Definition is_signal (h : Happening) : bool :=
  match h with SignalDelivered _ => true | _ => false end.

(** How many events of a trace satisfy [p]. *)
Definition count (p : Event -> bool) (tr : list Event) : nat :=
  length (filter (fun e => p e = true) tr).

End Trace.
Import Trace.

(** ** The pusher package *)

Module Pusher.

Section WithWorld.
Context {W : Type}.

Record APNSPusher : Type := {
  AppName : string;
  CertificatePath : string;
  Config : option Viper.Config;
  ConfigFile : string;
  feedbackReporters : slice (FeedbackReporter W);
  GracefulShutdownTimeout : Z;
  InvalidTokenHandlers : slice (InvalidTokenHandler W);
  IsProduction : bool;
  Logger : Interfaces.Logger;
  MessageHandler : option Interfaces.MessageHandler;
  PendingMessagesWG : WaitGroup;
  Queue : option Interfaces.Queue;
  run : bool;
  StatsReporters : slice (StatsReporter W)
}.

Definition set_Config v (a : APNSPusher) : APNSPusher :=
  {| AppName := AppName a; CertificatePath := CertificatePath a;
     Config := v; ConfigFile := ConfigFile a;
     feedbackReporters := feedbackReporters a;
     GracefulShutdownTimeout := GracefulShutdownTimeout a;
     InvalidTokenHandlers := InvalidTokenHandlers a;
     IsProduction := IsProduction a; Logger := Logger a;
     MessageHandler := MessageHandler a;
     PendingMessagesWG := PendingMessagesWG a; Queue := Queue a;
     run := run a; StatsReporters := StatsReporters a |}.

Definition set_feedbackReporters v (a : APNSPusher) : APNSPusher :=
  {| AppName := AppName a; CertificatePath := CertificatePath a;
     Config := Config a; ConfigFile := ConfigFile a;
     feedbackReporters := v;
     GracefulShutdownTimeout := GracefulShutdownTimeout a;
     InvalidTokenHandlers := InvalidTokenHandlers a;
     IsProduction := IsProduction a; Logger := Logger a;
     MessageHandler := MessageHandler a;
     PendingMessagesWG := PendingMessagesWG a; Queue := Queue a;
     run := run a; StatsReporters := StatsReporters a |}.

Definition set_GracefulShutdownTimeout v (a : APNSPusher) : APNSPusher :=
  {| AppName := AppName a; CertificatePath := CertificatePath a;
     Config := Config a; ConfigFile := ConfigFile a;
     feedbackReporters := feedbackReporters a;
     GracefulShutdownTimeout := v;
     InvalidTokenHandlers := InvalidTokenHandlers a;
     IsProduction := IsProduction a; Logger := Logger a;
     MessageHandler := MessageHandler a;
     PendingMessagesWG := PendingMessagesWG a; Queue := Queue a;
     run := run a; StatsReporters := StatsReporters a |}.

Definition set_InvalidTokenHandlers v (a : APNSPusher) : APNSPusher :=
  {| AppName := AppName a; CertificatePath := CertificatePath a;
     Config := Config a; ConfigFile := ConfigFile a;
     feedbackReporters := feedbackReporters a;
     GracefulShutdownTimeout := GracefulShutdownTimeout a;
     InvalidTokenHandlers := v;
     IsProduction := IsProduction a; Logger := Logger a;
     MessageHandler := MessageHandler a;
     PendingMessagesWG := PendingMessagesWG a; Queue := Queue a;
     run := run a; StatsReporters := StatsReporters a |}.

Definition set_MessageHandler v (a : APNSPusher) : APNSPusher :=
  {| AppName := AppName a; CertificatePath := CertificatePath a;
     Config := Config a; ConfigFile := ConfigFile a;
     feedbackReporters := feedbackReporters a;
     GracefulShutdownTimeout := GracefulShutdownTimeout a;
     InvalidTokenHandlers := InvalidTokenHandlers a;
     IsProduction := IsProduction a; Logger := Logger a;
     MessageHandler := v;
     PendingMessagesWG := PendingMessagesWG a; Queue := Queue a;
     run := run a; StatsReporters := StatsReporters a |}.

Definition set_Queue v (a : APNSPusher) : APNSPusher :=
  {| AppName := AppName a; CertificatePath := CertificatePath a;
     Config := Config a; ConfigFile := ConfigFile a;
     feedbackReporters := feedbackReporters a;
     GracefulShutdownTimeout := GracefulShutdownTimeout a;
     InvalidTokenHandlers := InvalidTokenHandlers a;
     IsProduction := IsProduction a; Logger := Logger a;
     MessageHandler := MessageHandler a;
     PendingMessagesWG := PendingMessagesWG a; Queue := v;
     run := run a; StatsReporters := StatsReporters a |}.

Definition set_run v (a : APNSPusher) : APNSPusher :=
  {| AppName := AppName a; CertificatePath := CertificatePath a;
     Config := Config a; ConfigFile := ConfigFile a;
     feedbackReporters := feedbackReporters a;
     GracefulShutdownTimeout := GracefulShutdownTimeout a;
     InvalidTokenHandlers := InvalidTokenHandlers a;
     IsProduction := IsProduction a; Logger := Logger a;
     MessageHandler := MessageHandler a;
     PendingMessagesWG := PendingMessagesWG a; Queue := Queue a;
     run := v; StatsReporters := StatsReporters a |}.

Definition set_StatsReporters v (a : APNSPusher) : APNSPusher :=
  {| AppName := AppName a; CertificatePath := CertificatePath a;
     Config := Config a; ConfigFile := ConfigFile a;
     feedbackReporters := feedbackReporters a;
     GracefulShutdownTimeout := GracefulShutdownTimeout a;
     InvalidTokenHandlers := InvalidTokenHandlers a;
     IsProduction := IsProduction a; Logger := Logger a;
     MessageHandler := MessageHandler a;
     PendingMessagesWG := PendingMessagesWG a; Queue := Queue a;
     run := run a; StatsReporters := v |}.

(** *** The machine

    A method runs on a state that holds its receiver [this] (the
    struct behind the [*APNSPusher] pointer), the world outside,
    what is still going to happen around the running goroutine, and
    the trace so far.  It returns, or it stops short: blocked in a
    [select] that nothing will wake, panicked on a nil dereference,
    or still inside a [for] without exit when the observation
    ends. *)
Record St : Type := {
  this : APNSPusher;
  world : W;
  pending : list Happening;
  trace : list Event
}.

Inductive Outcome (A : Type) : Type :=
| Returned (x : A)
| Blocked
| Panicked
| Looping.
Arguments Returned {A} x.
Arguments Blocked {A}.
Arguments Panicked {A}.
Arguments Looping {A}.

Definition M (A : Type) : Type := St -> Outcome A * St.

Definition ret {A} (x : A) : M A := fun st => (Returned x, st).

Definition bind {A B} (m : M A) (k : A -> M B) : M B :=
  fun st =>
    match m st with
    | (Returned x, st') => k x st'
    | (Blocked, st') => (Blocked, st')
    | (Panicked, st') => (Panicked, st')
    | (Looping, st') => (Looping, st')
    end.

Definition panic {A} : M A := fun st => (Panicked, st).

Definition get_this : M APNSPusher := fun st => (Returned (this st), st).

Definition modify_this (f : APNSPusher -> APNSPusher) : M unit :=
  fun st =>
    (Returned tt,
     {| this := f (this st); world := world st;
        pending := pending st; trace := trace st |}).

Definition emit (e : Event) : M unit :=
  fun st =>
    (Returned tt,
     {| this := this st; world := world st;
        pending := pending st; trace := trace st ++ [e] |}).

(** A call into the world that returns a value. *)
Definition call {A} (f : W -> A * W) : M A :=
  fun st =>
    let '(x, w) := f (world st) in
    (Returned x,
     {| this := this st; world := w;
        pending := pending st; trace := trace st |}).

(** Dereferencing a pointer or calling through an interface value
    that may be nil. *)
Definition deref {A} (p : option A) : M A :=
  match p with
  | Some x => ret x
  | None => panic
  end.

End WithWorld.
Arguments APNSPusher : clear implicits.
Arguments St : clear implicits.
Arguments M : clear implicits.
Arguments Returned {A} x.
Arguments Blocked {A}.
Arguments Panicked {A}.
Arguments Looping {A}.

Declare Scope prog_scope.
Delimit Scope prog_scope with prog.
Notation "'let*' x ':=' m 'in' k" := (bind m (fun x => k))
  (at level 10, x name, m at level 100, k at level 200) : prog_scope.
Notation "m '>>' k" := (bind m (fun _ => k))
  (at level 100, k at level 200, right associativity) : prog_scope.

(** *** What the pusher calls in the rest of the repository

    [util.NewViperWithConfigFile], the package-level
    [configureStatsReporters], [configureFeedbackReporters] and
    [configureInvalidTokenHandlers], and the constructors of the
    extensions package are not in [apns.go]; they are parameters, and
    so is Go's [strings.ToLower], with which viper folds its keys.  A
    Go function with results [(T, error)] returns [Ok] with the value
    or [Err] with the text of the error. *)
Inductive result (A : Type) : Type :=
| Ok (x : A)
| Err (e : string).
Arguments Ok {A} x.
Arguments Err {A} e.

Record Env (W : Type) : Type := {
  ToLower : string -> string;
  NewViperWithConfigFile : string -> Viper.Config;
  pkg_configureStatsReporters :
    string -> Interfaces.Logger -> string -> option Viper.Config ->
    result (slice (StatsReporter W));
  pkg_configureFeedbackReporters :
    string -> Interfaces.Logger -> option Viper.Config ->
    result (slice (FeedbackReporter W));
  pkg_configureInvalidTokenHandlers :
    option Viper.Config -> Interfaces.Logger -> option DB ->
    result (slice (InvalidTokenHandler W));
  NewKafkaConsumer :
    option Viper.Config -> Interfaces.Logger -> result Interfaces.Queue;
  NewAPNSMessageHandler :
    MessageHandlerArgs W -> result Interfaces.MessageHandler
}.
Arguments ToLower {W} _ _.
Arguments NewViperWithConfigFile {W} _ _.
Arguments pkg_configureStatsReporters {W} _ _ _ _ _.
Arguments pkg_configureFeedbackReporters {W} _ _ _ _.
Arguments pkg_configureInvalidTokenHandlers {W} _ _ _ _.
Arguments NewKafkaConsumer {W} _ _ _.
Arguments NewAPNSMessageHandler {W} _ _.

Section Methods.
Context {W : Type} (env : Env W).
Local Open Scope prog_scope.

Definition loadConfigurationDefaults : M W unit :=
  let* a := get_this in
  let* c := deref (Config a) in
  modify_this
    (set_Config
       (Some (Viper.SetDefault (ToLower env)
                "gracefulShutdownTimeout" int_10 c))).

Definition configureFeedbackReporters : M W Go.error :=
  let* a := get_this in
  match pkg_configureFeedbackReporters env
          (ConfigFile a) (Logger a) (Config a) with
  | Err e => ret (Some e)
  | Ok reporters =>
      modify_this (set_feedbackReporters reporters) >>
      ret None
  end.

Definition configureStatsReporters
    (statsReporters : slice (StatsReporter W)) : M W Go.error :=
  if negb (is_nil statsReporters) then
    modify_this (set_StatsReporters statsReporters) >>
    ret None
  else
    let* a := get_this in
    match pkg_configureStatsReporters env
            (ConfigFile a) (Logger a) (AppName a) (Config a) with
    | Err e => ret (Some e)
    | Ok reporters =>
        modify_this (set_StatsReporters reporters) >>
        ret None
    end.

Definition configureInvalidTokenHandlers
    (dbOrNil : option DB) : M W Go.error :=
  let* a := get_this in
  match pkg_configureInvalidTokenHandlers env
          (Config a) (Logger a) dbOrNil with
  | Err e => ret (Some e)
  | Ok invalidTokenHandlers =>
      modify_this (set_InvalidTokenHandlers invalidTokenHandlers) >>
      ret None
  end.

(** [if err := m; err != nil { return err }] followed by [k]. *)
Definition or_return (m k : M W Go.error) : M W Go.error :=
  let* err := m in
  match err with
  | Some e => ret (Some e)
  | None => k
  end.

Definition configure (queue : option APNSPushQueue) (db : option DB)
    (statsReporters : slice (StatsReporter W)) : M W Go.error :=
  let* a := get_this in
  modify_this
    (set_Config (Some (NewViperWithConfigFile env (ConfigFile a)))) >>
  loadConfigurationDefaults >>
  let* a := get_this in
  let* c := deref (Config a) in
  modify_this
    (set_GracefulShutdownTimeout
       (Viper.GetInt (ToLower env) "gracefulShutdownTimeout" c)) >>
  or_return (configureStatsReporters statsReporters)
 (or_return configureFeedbackReporters
 (or_return (configureInvalidTokenHandlers db)
 (let* a := get_this in
  match NewKafkaConsumer env (Config a) (Logger a) with
  | Err e => ret (Some e)
  | Ok q =>
      modify_this (set_Queue (Some q)) >>
      let* a := get_this in
      let* q := deref (Queue a) in
      match NewAPNSMessageHandler env
              {| mh_configFile := ConfigFile a;
                 mh_certificatePath := CertificatePath a;
                 mh_appName := AppName a;
                 mh_isProduction := IsProduction a;
                 mh_logger := Logger a;
                 mh_pendingMessagesWG := Queue_PendingMessagesWaitGroup q;
                 mh_statsReporters := StatsReporters a;
                 mh_feedbackReporters := feedbackReporters a;
                 mh_invalidTokenHandlers := InvalidTokenHandlers a;
                 mh_pushQueue := queue |} with
      | Err e => ret (Some e)
      | Ok handler =>
          modify_this (set_MessageHandler (Some handler)) >>
          ret None
      end
  end))).

(** The first element of the variadic [queueOrNil], or nil. *)
Definition first_queue (queueOrNil : list (option APNSPushQueue))
  : option APNSPushQueue :=
  match queueOrNil with
  | [] => None
  | q :: _ => q
  end.

(** [NewAPNSPusher]: [wg] names the wait group the function
    allocates, [w] is the world at the call.  The result is the pair
    Go pair of a pointer and an [error], [None] standing for nil. *)
Definition NewAPNSPusher (configFile certificatePath appName : string)
    (isProduction : bool) (logger : Interfaces.Logger)
    (statsReporters : slice (StatsReporter W)) (db : option DB)
    (queueOrNil : list (option APNSPushQueue))
    (wg : WaitGroup) (w : W)
  : Outcome (option (APNSPusher W) * Go.error) :=
  let a :=
    {| AppName := appName; CertificatePath := certificatePath;
       Config := None; ConfigFile := configFile;
       feedbackReporters := nil_slice; GracefulShutdownTimeout := 0;
       InvalidTokenHandlers := nil_slice;
       IsProduction := isProduction; Logger := logger;
       MessageHandler := None; PendingMessagesWG := wg;
       Queue := None; run := false; StatsReporters := nil_slice |} in
  let queue := first_queue queueOrNil in
  match configure queue db statsReporters
          {| this := a; world := w; pending := []; trace := [] |} with
  | (Returned (Some e), _) => Returned (None, Some e)
  | (Returned None, st) => Returned (Some (this st), None)
  | (Blocked, _) => Blocked
  | (Panicked, _) => Panicked
  | (Looping, _) => Looping
  end.

(** [select] with the single case [<-sigchan]: it wakes on the next
    delivered signal and on nothing else. *)
Definition set_pending (hs : list Happening) : M W unit :=
  fun st =>
    (Returned tt,
     {| this := this st; world := world st;
        pending := hs; trace := trace st |}).

Definition block {A} : M W A := fun st => (Blocked, st).

(** [for a.run == true { select { case sig := <-sigchan: ... } }],
    by recursion on what is still going to happen. *)
Fixpoint waitLoop (hs : list Happening) : M W unit :=
  let* a := get_this in
  if run a then
    match hs with
    | [] => block
    | SignalDelivered sig :: hs' =>
        set_pending hs' >>
        emit (LogWarnf "caught signal %v: terminating\n" sig) >>
        modify_this (set_run false) >>
        emit (SetRun false) >>
        waitLoop hs'
    | ConsumeLoopExited _ :: hs' =>
        set_pending hs' >>
        waitLoop hs'
    end
  else ret tt.

Definition mainLoop : M W unit := fun st => waitLoop (pending st) st.

Definition Start : M W unit :=
  modify_this (set_run true) >>
  emit (SetRun true) >>
  let* a := get_this in
  emit (LogInfo [("method", "start"); ("configFile", ConfigFile a);
                 ("certificatePath", CertificatePath a)]
                "starting pusher in apns mode...") >>
  let* handler := deref (MessageHandler a) in
  let* q := deref (Queue a) in
  emit (GoStmt (HandleMessages handler (Queue_MessagesChannel q))) >>
  emit (GoStmt (HandleResponses handler)) >>
  emit (GoStmt (ConsumeLoop (queue_name q))) >>
  emit (GoStmt ReportGoStatsLoop) >>
  emit (SignalNotify [os_Interrupt; SIGINT; SIGTERM]) >>
  mainLoop >>
  let* a := get_this in
  let* q := deref (Queue a) in
  emit (StopConsuming (queue_name q)) >>
  emit (GracefulShutdown
          (Queue_PendingMessagesWaitGroup q)
          (Duration_mul (Duration_of_int (GracefulShutdownTimeout a))
                        Second)).

(** [m.PauseNs[(m.NumGC+255)%256]]: the sum is a [uint32]. *)
Definition gcTimeIndex (m : MemStats) : Z :=
  wrapU32 (NumGC m + 255) mod 256.

(** [for _, statsReporter := range a.StatsReporters { ... }]: the
    sink at position [i] and those after it. *)
Fixpoint reportTo (i : nat) (rs : list (StatsReporter W))
    (num alloc heapObjects nextGC gcTime : Z) : M W unit :=
  match rs with
  | [] => ret tt
  | statsReporter :: rs' =>
      emit (ReportGoStatsCall i num alloc heapObjects nextGC gcTime) >>
      call (fun w =>
              (tt, ReportGoStats statsReporter
                     num alloc heapObjects nextGC gcTime w)) >>
      reportTo (S i) rs' num alloc heapObjects nextGC gcTime
  end.

(** The body of the [for] of [reportGoStats]. *)
Definition reportGoStats_body (rt : Runtime) : M W unit :=
  let num := NumGoroutine rt in
  let m := ReadMemStats rt in
  let gcTime := index (PauseNs m) (gcTimeIndex m) in
  let* a := get_this in
  reportTo 0 (elems (StatsReporters a))
    num (Alloc m) (HeapObjects m) (NextGC m) gcTime >>
  emit (Sleep (Duration_mul 30 Second)).

(** [reportGoStats], observed for [fuel] iterations from iteration
    [n] on; [rt k] is what the runtime reports in iteration [k].
    The [for] has no condition, no [break] and no [return]. *)
Fixpoint reportGoStats_from (fuel n : nat) (rt : nat -> Runtime)
  : M W unit :=
  match fuel with
  | O => fun st => (Looping, st)
  | S fuel' =>
      reportGoStats_body (rt n) >>
      reportGoStats_from fuel' (S n) rt
  end.

Definition reportGoStats (fuel : nat) (rt : nat -> Runtime) : M W unit :=
  reportGoStats_from fuel 0%nat rt.

End Methods.

End Pusher.
Import Pusher.

(** ** The extensions package: the two fan-out helpers *)

Module Extensions.

Section WithWorld.
Context {W : Type}.
Local Open Scope prog_scope.

(** Modelled from the spec: [handleInvalidToken], of which the
    repository's sources here hold only the tests.  The handlers are
    called in order with the token; a handler's error is logged and
    the iteration goes on; nothing is returned to the caller. *)
Fixpoint handleInvalidTokenFrom (i : nat)
    (hs : list (InvalidTokenHandler W)) (token : string) : M W unit :=
  match hs with
  | [] => ret tt
  | invalidTokenHandler :: hs' =>
      let* err := call (HandleToken invalidTokenHandler token) in
      emit (HandleTokenCall i token err) >>
      match err with
      | Some e => emit (LogError e)
      | None => ret tt
      end >>
      handleInvalidTokenFrom (S i) hs' token
  end.

Definition handleInvalidToken
    (invalidTokenHandlers : slice (InvalidTokenHandler W))
    (token : string) : M W unit :=
  handleInvalidTokenFrom 0 (elems invalidTokenHandlers) token.

(** Modelled from the spec: the delivery loop of
    [sendToFeedbackReporters]; a failing sink is logged and the
    remaining ones are still served. *)
Fixpoint sendFeedbackFrom (i : nat)
    (rs : list (FeedbackReporter W)) (jres : string) : M W unit :=
  match rs with
  | [] => ret tt
  | feedbackReporter :: rs' =>
      let* err := call (SendFeedback feedbackReporter jres) in
      emit (SendFeedbackCall i jres err) >>
      match err with
      | Some e => emit (LogError e)
      | None => ret tt
      end >>
      sendFeedbackFrom (S i) rs' jres
  end.

(** Modelled from the spec: [sendToFeedbackReporters], of which the
    sources here hold only a test.  The outcome [res] is serialized
    first, by [marshal] (the JSON encoder); when that fails the
    error is returned and no sink is called. *)
Definition sendToFeedbackReporters {P : Type}
    (marshal : P -> result string)
    (feedbackReporters : slice (FeedbackReporter W)) (res : P)
  : M W Go.error :=
  match marshal res with
  | Err e => ret (Some e)
  | Ok jres =>
      sendFeedbackFrom 0 (elems feedbackReporters) jres >>
      ret None
  end.

End WithWorld.

End Extensions.
Import Extensions.

(** ** The fixtures of the unit tests *)

Module Fixtures.

(** Modelled from the spec: the store and the broker client behind the
    sinks of the tests ([mocks.PGMock], [mocks.KafkaProducerClientMock]),
    which are not among the sources.  The store records every
    statement it is asked to run and answers with its [Error]; the
    broker client records what it is sent. *)
Record World : Type := {
  Execs : list (string * list string);
  Error : Go.error;
  Sent : list string
}.

Definition Exec (query : string) (params : list string) (w : World)
  : Go.error * World :=
  (Error w,
   {| Execs := Execs w ++ [(query, params)];
      Error := Error w; Sent := Sent w |}).

(** Modelled from the spec: the invalid-token handler of the tests
    ([NewTokenPG] over the store), whose delete statement the tests
    read back from [Execs]. *)
Definition TokenPG (table : string) : InvalidTokenHandler World :=
  {| HandleToken token :=
       Exec ("DELETE FROM " +:+ table +:+ " WHERE token = ?0;") [token] |}.

(** Modelled from the spec: a feedback sink that hands the payload to
    the broker client and does not fail. *)
Definition KafkaProducer : FeedbackReporter World :=
  {| SendFeedback jres w :=
       (None,
        {| Execs := Execs w; Error := Error w;
           Sent := Sent w ++ [jres] |}) |}.

(** A sink whose call fails with [e] and changes nothing. *)
Definition FailingReporter (e : string) : FeedbackReporter World :=
  {| SendFeedback _ w := (Some e, w) |}.


(** A stats sink that writes the sample it is given to the broker
    client. *)
Definition StatsRecorder (name : string) : StatsReporter World :=
  {| ReportGoStats _ _ _ _ _ w :=
       {| Execs := Execs w; Error := Error w;
          Sent := Sent w ++ [name] |} |}.

(** The payloads of the tests: a Go channel, which the JSON encoder
    refuses, and a value whose encoding is [s]. *)
Inductive Payload : Type :=
| ChanInt
| Encodable (s : string).

Definition marshal (p : Payload) : result string :=
  match p with
  | ChanInt => Err "json: unsupported type: chan int"
  | Encodable s => Ok s
  end.

(** The store after [NewPGMock] and [NewTokenPG]: one statement has
    run. *)
Definition db (first : string * list string) (err : Go.error) : World :=
  {| Execs := [first]; Error := err; Sent := [] |}.

Definition queue : Interfaces.Queue :=
  {| queue_name := "kafka";
     Queue_MessagesChannel := "msgChan";
     Queue_PendingMessagesWaitGroup := "kafka.pendingMessagesWG" |}.

(** A pusher as [NewAPNSPusher] leaves it when every step succeeds. *)
Definition pusher (timeout : Z) : APNSPusher World :=
  {| AppName := "testapp"; CertificatePath := "cert.pem";
     Config := Some {| Viper.settings := ∅;
                       Viper.defaults :=
                         {["gracefulshutdowntimeout" := int_10]} |};
     ConfigFile := "../config/test.yaml";
     feedbackReporters := mk_slice [KafkaProducer];
     GracefulShutdownTimeout := timeout;
     InvalidTokenHandlers := mk_slice [TokenPG "test_apns"];
     IsProduction := false; Logger := "logger";
     MessageHandler := Some "apnsMessageHandler";
     PendingMessagesWG := "wg";
     Queue := Some queue; run := false;
     StatsReporters := mk_slice [StatsRecorder "statsd";
                                 StatsRecorder "logger"] |}.

Definition state (a : APNSPusher World) (hs : list Happening)
  : St World :=
  {| this := a; world := db ("SELECT 1", []) None;
     pending := hs; trace := [] |}.

(** An environment in which every step of [configure] succeeds, and
    one in which the step [failing] fails. *)
Inductive Step : Type :=
| StatsStep | FeedbackStep | TokenStep | QueueStep | HandlerStep.

Definition step_eqb (s1 s2 : Step) : bool :=
  match s1, s2 with
  | StatsStep, StatsStep | FeedbackStep, FeedbackStep
  | TokenStep, TokenStep | QueueStep, QueueStep
  | HandlerStep, HandlerStep => true
  | _, _ => false
  end.

(** [strings.ToLower] on ASCII text. *)
Definition lower (c : Ascii.ascii) : Ascii.ascii :=
  let n := Ascii.nat_of_ascii c in
  if ((65 <=? n) && (n <=? 90))%nat
  then Ascii.ascii_of_nat (n + 32) else c.

Fixpoint toLower (s : string) : string :=
  match s with
  | EmptyString => EmptyString
  | String c s' => String (lower c) (toLower s')
  end.

Definition env (cfg : Viper.Config) (failing : option Step) : Env World :=
  let fails s :=
    match failing with Some s' => step_eqb s s' | None => false end in
  {| ToLower := toLower;
     NewViperWithConfigFile _ := cfg;
     pkg_configureStatsReporters _ _ _ _ :=
       if fails StatsStep then Err "statsd: no such host"
       else Ok (mk_slice [StatsRecorder "statsd"]);
     pkg_configureFeedbackReporters _ _ _ :=
       if fails FeedbackStep then Err "kafka: no brokers"
       else Ok (mk_slice [KafkaProducer]);
     pkg_configureInvalidTokenHandlers _ _ _ :=
       if fails TokenStep then Err "pg: connection refused"
       else Ok (mk_slice [TokenPG "test_apns"]);
     NewKafkaConsumer _ _ :=
       if fails QueueStep then Err "kafka: consumer failed"
       else Ok queue;
     NewAPNSMessageHandler args :=
       if fails HandlerStep then Err "apns: bad certificate"
       else Ok ("handler:" +:+ default "nil" (mh_pushQueue args)) |}.

Definition emptyConfig : Viper.Config :=
  {| Viper.settings := ∅; Viper.defaults := ∅ |}.

(** A configuration file that sets the drain timeout to 9223372037
    seconds, and what [NewAPNSPusher] builds from it. *)
Definition largeTimeoutConfig : Viper.Config :=
  {| Viper.settings :=
       {["gracefulshutdowntimeout" :=
           {| int_val := 9223372037; int_ok := eq_refl |}]};
     Viper.defaults := ∅ |}.

Definition builtLarge : APNSPusher World :=
  {| AppName := "testapp"; CertificatePath := "cert.pem";
     Config := Some (Viper.SetDefault toLower "gracefulShutdownTimeout"
                       int_10 largeTimeoutConfig);
     ConfigFile := "../config/test.yaml";
     feedbackReporters := mk_slice [KafkaProducer];
     GracefulShutdownTimeout := 9223372037;
     InvalidTokenHandlers := mk_slice [TokenPG "test_apns"];
     IsProduction := false; Logger := "logger";
     MessageHandler := Some "handler:nil";
     PendingMessagesWG := "wg";
     Queue := Some queue; run := false;
     StatsReporters := mk_slice [StatsRecorder "statsd"] |}.

(** What [NewAPNSPusher] builds in the environment where no step fails,
    from an empty configuration and no queue argument. *)
Definition built : APNSPusher World :=
  {| AppName := "testapp"; CertificatePath := "cert.pem";
     Config := Some (Viper.SetDefault toLower "gracefulShutdownTimeout"
                       int_10 emptyConfig);
     ConfigFile := "../config/test.yaml";
     feedbackReporters := mk_slice [KafkaProducer];
     GracefulShutdownTimeout := 10;
     InvalidTokenHandlers := mk_slice [TokenPG "test_apns"];
     IsProduction := false; Logger := "logger";
     MessageHandler := Some "handler:nil";
     PendingMessagesWG := "wg";
     Queue := Some queue; run := false;
     StatsReporters := mk_slice [StatsRecorder "statsd"] |}.

End Fixtures.

(** ** Reading runs *)

Module Observe.

(** The first signal that is going to be delivered, and what is left
    to happen after it. *)
Fixpoint first_signal (hs : list Happening)
  : option (Signal * list Happening) :=
  match hs with
  | [] => None
  | SignalDelivered sig :: hs' => Some (sig, hs')
  | ConsumeLoopExited _ :: hs' => first_signal hs'
  end.

Section WithWorld.
Context {W : Type}.

(** The events of a run from [st] to [st']. *)
Definition emitted (st st' : St W) : list Event :=
  drop (length (trace st)) (trace st').

(** The state [st] with other things going to happen. *)
Definition with_pending (hs : list Happening) (st : St W) : St W :=
  {| this := this st; world := world st; pending := hs;
     trace := trace st |}.

(** What [Start] does before it waits for a signal. *)
Definition startup (a : APNSPusher W) (handler : Interfaces.MessageHandler)
    (q : Interfaces.Queue) : list Event :=
  [SetRun true;
   LogInfo [("method", "start"); ("configFile", ConfigFile a);
            ("certificatePath", CertificatePath a)]
           "starting pusher in apns mode...";
   GoStmt (HandleMessages handler (Queue_MessagesChannel q));
   GoStmt (HandleResponses handler);
   GoStmt (ConsumeLoop (queue_name q));
   GoStmt ReportGoStatsLoop;
   SignalNotify [SIGINT; SIGINT; SIGTERM]].

(** The calls of one fan-out of a runtime sample to [n] sinks. *)
Definition sample_calls (n : nat) (rt : Runtime) : list Event :=
  let m := ReadMemStats rt in
  (fun i =>
     ReportGoStatsCall i (NumGoroutine rt) (Alloc m) (HeapObjects m)
       (NextGC m) (index (PauseNs m) ((NumGC m + 255) mod 256)))
  <$> seq 0 n.

(** The events of the iterations [n], ..., [n + fuel - 1] of the
    stats loop over [k] sinks. *)
Definition iterations (k : nat) (rt : nat -> Runtime) (n fuel : nat)
  : list Event :=
  concat ((fun j => sample_calls k (rt j) ++ [Sleep (30 * Second)])
          <$> seq n fuel).

(** The world after each of the sinks [rs] was given a sample. *)
Definition delivered (rs : list (StatsReporter W))
    (num alloc heapObjects nextGC gcTime : Z) (w : W) : W :=
  fold_left
    (fun w r => ReportGoStats r num alloc heapObjects nextGC gcTime w)
    rs w.

(** The sinks and arguments of the calls in a trace. *)
Definition token_calls (tr : list Event) : list (nat * string) :=
  omap (fun e =>
          match e with
          | HandleTokenCall i token _ => Some (i, token)
          | _ => None
          end) tr.

Definition feedback_calls (tr : list Event) : list (nat * string) :=
  omap (fun e =>
          match e with
          | SendFeedbackCall i jres _ => Some (i, jres)
          | _ => None
          end) tr.

(** The errors of the failed sink calls of a trace, and the errors
    it logs. *)
Definition failures (tr : list Event) : list string :=
  omap (fun e =>
          match e with
          | HandleTokenCall _ _ (Some err) => Some err
          | SendFeedbackCall _ _ (Some err) => Some err
          | _ => None
          end) tr.

Definition logged (tr : list Event) : list string :=
  omap (fun e =>
          match e with
          | LogError err => Some err
          | _ => None
          end) tr.

(** The world after the iterations [n], ..., [n + fuel - 1] of the
    stats loop over the sinks [rs]: each iteration hands the sample it
    reads to every sink in turn. *)
Fixpoint ran (rs : list (StatsReporter W)) (rt : nat -> Runtime)
    (n fuel : nat) (w : W) : W :=
  match fuel with
  | O => w
  | S fuel' =>
      let m := ReadMemStats (rt n) in
      ran rs rt (S n) fuel'
        (delivered rs (NumGoroutine (rt n)) (Alloc m) (HeapObjects m)
           (NextGC m) (index (PauseNs m) ((NumGC m + 255) mod 256)) w)
  end.

(** The world after each of the handlers [hs] was given the token,
    and after each of the reporters [rs] was given the payload. *)
Definition handled (hs : list (InvalidTokenHandler W))
    (token : string) (w : W) : W :=
  fold_left (fun w h => snd (HandleToken h token w)) hs w.


(** The configuration [configure] works with: the one
    [util.NewViperWithConfigFile] returns, with the pusher's default
    set. *)
Definition loaded (env : Env W) (configFile : string) : Viper.Config :=
  Viper.SetDefault (ToLower env) "gracefulShutdownTimeout" int_10
    (NewViperWithConfigFile env configFile).

(** Two calls of [Start] on the same instance, one after the other:
    the second runs on the state the first one left. *)
Definition StartTwice (st : St W) : Outcome unit * St W :=
  match Start st with
  | (Returned _, st') => Start st'
  | r => r
  end.

(** The state [st] with another struct behind the receiver. *)
Definition with_this (a : APNSPusher W) (st : St W) : St W :=
  {| this := a; world := world st; pending := pending st;
     trace := trace st |}.

(** The environment [env] with another package-level
    [configureStatsReporters]. *)
Definition with_stats_constructor
    (f : string -> Interfaces.Logger -> string -> option Viper.Config ->
         result (slice (StatsReporter W)))
    (env : Env W) : Env W :=
  {| ToLower := ToLower env;
     NewViperWithConfigFile := NewViperWithConfigFile env;
     pkg_configureStatsReporters := f;
     pkg_configureFeedbackReporters := pkg_configureFeedbackReporters env;
     pkg_configureInvalidTokenHandlers :=
       pkg_configureInvalidTokenHandlers env;
     NewKafkaConsumer := NewKafkaConsumer env;
     NewAPNSMessageHandler := NewAPNSMessageHandler env |}.

(** Is [e] a call of the stats sink at position [i]? *)
Definition is_call_to (i : nat) (e : Event) : bool :=
  match e with
  | ReportGoStatsCall j _ _ _ _ _ => Nat.eqb i j
  | _ => false
  end.

(** The time a trace spends in [time.Sleep], in nanoseconds. *)
Fixpoint slept (tr : list Event) : Z :=
  match tr with
  | [] => 0
  | Sleep d :: tr' => d + slept tr'
  | _ :: tr' => slept tr'
  end.

End WithWorld.

End Observe.
Import Observe.

(** The Go runtime completes a collection: the pause goes to slot
    [NumGC mod 256] of the circular buffer and [NumGC] is incremented
    (the discipline [runtime.MemStats] documents for [PauseNs]). *)
Definition recordPause (pause : Z) (m : MemStats) : MemStats :=
  {| Alloc := Alloc m; HeapObjects := HeapObjects m; NextGC := NextGC m;
     NumGC := wrapU32 (NumGC m + 1);
     PauseNs := <[Z.to_nat (NumGC m mod 256) := pause]> (PauseNs m) |}.

(** * Properties *)

(** ** The monad *)

Section MachineLemmas.
Context {W : Type}.
Implicit Types st : St W.

Lemma emitted_app st st' new :
  trace st' = trace st ++ new -> emitted st st' = new.
Proof.
  intros H. unfold emitted. rewrite H. apply drop_app_length.
Qed.

End MachineLemmas.

(** ** The main loop of [Start] *)

Section MainLoop.
Context {W : Type}.
Implicit Types st : St W.

(** A delivered signal ends the loop: the warning is logged, [run] is
    cleared, and what was to happen after the signal is still to
    happen. *)
Lemma waitLoop_signal hs : forall st sig rest,
  run (this st) = true ->
  first_signal hs = Some (sig, rest) ->
  waitLoop hs st =
    (Returned tt,
     {| this := set_run false (this st); world := world st;
        pending := rest;
        trace := trace st ++
                 [LogWarnf "caught signal %v: terminating\n" sig;
                  SetRun false] |}).
Proof.
  induction hs as [|h hs IH]; intros st sig rest Hrun Hfirst;
    [discriminate|].
  destruct h as [sig'|err]; simpl in Hfirst.
  - injection Hfirst as -> ->.
    cbn [waitLoop]. unfold bind at 1, get_this at 1. rewrite Hrun.
    destruct rest; cbn; by rewrite <- app_assoc.
  - cbn [waitLoop]. unfold bind at 1, get_this at 1. rewrite Hrun.
    unfold bind at 1, set_pending at 1.
    by rewrite (IH _ sig rest).
Qed.

(** Without a signal the loop never leaves its [select]. *)
Lemma waitLoop_no_signal hs : forall st,
  run (this st) = true ->
  pending st = hs ->
  first_signal hs = None ->
  waitLoop hs st =
    (Blocked,
     {| this := this st; world := world st; pending := [];
        trace := trace st |}).
Proof.
  induction hs as [|h hs IH]; intros st Hrun Hpend Hfirst.
  - cbn. rewrite Hrun. unfold block. destruct st; simpl in *; by subst.
  - destruct h as [sig|err]; [discriminate|].
    cbn [waitLoop]. unfold bind at 1, get_this at 1. rewrite Hrun.
    unfold bind at 1, set_pending at 1.
    by rewrite IH.
Qed.

(** The loop does not tell a consume loop that has returned from one
    that is still running. *)
Lemma first_signal_filter hs :
  first_signal (filter (fun h => is_signal h = true) hs) =
  match first_signal hs with
  | Some (sig, rest) =>
      Some (sig, filter (fun h => is_signal h = true) rest)
  | None => None
  end.
Proof.
  induction hs as [|[sig|err] hs IH]; [done| |].
  - by rewrite filter_cons_True.
  - rewrite filter_cons_False; [exact IH | simpl; congruence].
Qed.

End MainLoop.

(** ** [Start] *)

Section StartLemmas.
Context {W : Type}.
Implicit Types st : St W.

(** [Start] when a signal is going to be delivered. *)
Lemma Start_signal st handler q sig rest :
  MessageHandler (this st) = Some handler ->
  Queue (this st) = Some q ->
  first_signal (pending st) = Some (sig, rest) ->
  Start st =
    (Returned tt,
     {| this := set_run false (this st); world := world st;
        pending := rest;
        trace := trace st ++ startup (this st) handler q ++
                 [LogWarnf "caught signal %v: terminating\n" sig;
                  SetRun false;
                  StopConsuming (queue_name q);
                  GracefulShutdown (Queue_PendingMessagesWaitGroup q)
                    (Duration_mul
                       (Duration_of_int (GracefulShutdownTimeout (this st)))
                       Second)] |}).
Proof.
  intros Hh Hq Hsig.
  unfold Start, bind, modify_this, emit, get_this, deref, mainLoop. simpl.
  rewrite Hh, Hq. simpl.
  erewrite waitLoop_signal; [|done|simpl; exact Hsig]. simpl.
  rewrite Hq. simpl.
  do 2 f_equal. by rewrite <- !app_assoc.
Qed.

(** [Start] when no signal is going to be delivered. *)
Lemma Start_no_signal st handler q :
  MessageHandler (this st) = Some handler ->
  Queue (this st) = Some q ->
  first_signal (pending st) = None ->
  Start st =
    (Blocked,
     {| this := set_run true (this st); world := world st;
        pending := [];
        trace := trace st ++ startup (this st) handler q |}).
Proof.
  intros Hh Hq Hsig.
  unfold Start, bind, modify_this, emit, get_this, deref, mainLoop. simpl.
  rewrite Hh, Hq. simpl.
  erewrite waitLoop_no_signal; [|done|done|simpl; exact Hsig]. simpl.
  do 2 f_equal. by rewrite <- !app_assoc.
Qed.

(** [Start] on a struct whose handler or queue is nil. *)
Lemma Start_nil st :
  MessageHandler (this st) = None \/ Queue (this st) = None ->
  fst (Start st) = Panicked /\
  forall k, count (launches k) (emitted st (snd (Start st))) = 0%nat.
Proof.
  intros Hnil.
  assert (Start st =
          (Panicked,
           {| this := set_run true (this st); world := world st;
              pending := pending st;
              trace := trace st ++
                [SetRun true;
                 LogInfo [("method", "start");
                          ("configFile", ConfigFile (this st));
                          ("certificatePath", CertificatePath (this st))]
                         "starting pusher in apns mode..."] |})) as ->.
  { unfold Start, bind, modify_this, emit, get_this, deref. simpl.
    destruct Hnil as [H|H].
    - rewrite H. simpl. by rewrite <- app_assoc.
    - rewrite H. destruct (MessageHandler (this st)); simpl;
        by rewrite <- app_assoc. }
  split; [done|]. intros k. simpl.
  erewrite emitted_app; [|simpl; reflexivity]. by destruct k.
Qed.

End StartLemmas.

(** ** Shutdown on a signal *)

(** C1: in every run of [Start] in which an interrupt or termination
    signal is delivered, [Start] returns; the first signal clears the
    [run] flag and ends the main loop (what was to happen after that
    signal is left untouched), then the queue's [StopConsuming] is called,
    once, and only then [GracefulShutdown] is entered, on the queue's
    pending-messages wait group: the events of the run end with the write
    of [run], the stop and the drain wait, in this order, and there is no
    other stop or drain wait among them. *)
Theorem Start_stops_intake_before_drain {W} (st : St W) handler q sig rest :
  MessageHandler (this st) = Some handler ->
  Queue (this st) = Some q ->
  first_signal (pending st) = Some (sig, rest) ->
  exists st' before,
    Start st = (Returned tt, st') /\
    run (this st') = false /\
    pending st' = rest /\
    emitted st st' =
      before ++
      [SetRun false;
       StopConsuming (queue_name q);
       GracefulShutdown (Queue_PendingMessagesWaitGroup q)
         (Duration_mul (Duration_of_int (GracefulShutdownTimeout (this st)))
                       Second)] /\
    count is_stop before = 0%nat /\
    count is_drain before = 0%nat /\
    count is_stop (emitted st st') = 1%nat /\
    count is_drain (emitted st st') = 1%nat.
Proof.
  intros Hh Hq Hsig.
  eexists _, (startup (this st) handler q ++
              [LogWarnf "caught signal %v: terminating\n" sig]).
  split; [by apply Start_signal|].
  erewrite emitted_app; [|simpl; reflexivity].
  repeat split; done.
Qed.

Lemma Start_stops_intake_before_drain_witness :
  exists st' before,
    Start (Fixtures.state (Fixtures.pusher 10)
             [ConsumeLoopExited None; SignalDelivered SIGTERM;
              SignalDelivered SIGINT]) = (Returned tt, st') /\
    run (this st') = false /\
    pending st' = [SignalDelivered SIGINT] /\
    emitted (Fixtures.state (Fixtures.pusher 10)
               [ConsumeLoopExited None; SignalDelivered SIGTERM;
                SignalDelivered SIGINT]) st' =
      before ++
      [SetRun false;
       StopConsuming "kafka";
       GracefulShutdown "kafka.pendingMessagesWG"
         (Duration_mul (Duration_of_int 10) Second)] /\
    count is_stop before = 0%nat /\
    count is_drain before = 0%nat /\
    count is_stop
      (emitted (Fixtures.state (Fixtures.pusher 10)
                  [ConsumeLoopExited None; SignalDelivered SIGTERM;
                   SignalDelivered SIGINT]) st') = 1%nat /\
    count is_drain
      (emitted (Fixtures.state (Fixtures.pusher 10)
                  [ConsumeLoopExited None; SignalDelivered SIGTERM;
                   SignalDelivered SIGINT]) st') = 1%nat.
Proof.
  apply (Start_stops_intake_before_drain
           (Fixtures.state (Fixtures.pusher 10)
              [ConsumeLoopExited None; SignalDelivered SIGTERM;
               SignalDelivered SIGINT])
           "apnsMessageHandler" Fixtures.queue SIGTERM
           [SignalDelivered SIGINT]); reflexivity.
Defined.

(** ** A consume loop that returns *)

(** C2, as the spec states it, fails: the consume loop returns with a
    broker error and no signal arrives; [Start] stays blocked in its
    [select], the queue is not stopped and the drain wait is not
    entered, whereas after a signal both happen. *)
Lemma consume_loop_exit_leaves_Start_blocked :
  let broken :=
    Fixtures.state (Fixtures.pusher 10)
      [ConsumeLoopExited (Some "kafka: broker unreachable")] in
  let signalled :=
    Fixtures.state (Fixtures.pusher 10) [SignalDelivered SIGTERM] in
  (fst (Start signalled) = Returned tt /\
   count is_stop (trace (snd (Start signalled))) = 1%nat /\
   count is_drain (trace (snd (Start signalled))) = 1%nat) /\
  (fst (Start broken) = Blocked /\
   count is_stop (trace (snd (Start broken))) = 0%nat /\
   count is_drain (trace (snd (Start broken))) = 0%nat).
Proof. repeat split; reflexivity. Qed.

(** C2, amended: [Start] does not observe the consume loop.  Whether or
    not the consume loop has returned, with or without an error, [Start]
    has the same outcome and the same trace and leaves the same struct;
    as long as no signal is delivered it stays blocked in its main loop
    with [run] set, and neither stops the queue nor enters the drain
    wait. *)
Theorem Start_ignores_consume_loop_exit {W} (st : St W) handler q :
  MessageHandler (this st) = Some handler ->
  Queue (this st) = Some q ->
  (let signals := filter (fun h => is_signal h = true) (pending st) in
   fst (Start st) = fst (Start (with_pending signals st)) /\
   trace (snd (Start st)) = trace (snd (Start (with_pending signals st))) /\
   this (snd (Start st)) = this (snd (Start (with_pending signals st)))) /\
  (first_signal (pending st) = None ->
   fst (Start st) = Blocked /\
   run (this (snd (Start st))) = true /\
   count is_stop (emitted st (snd (Start st))) = 0%nat /\
   count is_drain (emitted st (snd (Start st))) = 0%nat).
Proof.
  intros Hh Hq. split.
  - cbv zeta. pose proof (first_signal_filter (pending st)) as Hf.
    destruct (first_signal (pending st)) as [[sig rest]|] eqn:Hsig.
    + rewrite (Start_signal st handler q sig rest) by done.
      rewrite (Start_signal (with_pending _ st) handler q sig _ Hh Hq Hf).
      done.
    + rewrite (Start_no_signal st handler q) by done.
      by rewrite (Start_no_signal (with_pending _ st) handler q Hh Hq Hf).
  - intros Hsig. rewrite (Start_no_signal st handler q) by done. simpl.
    erewrite emitted_app; [|simpl; reflexivity]. done.
Qed.

Lemma Start_ignores_consume_loop_exit_witness :
  fst (Start (Fixtures.state (Fixtures.pusher 10)
                [ConsumeLoopExited (Some "kafka: broker unreachable")])) =
  Blocked.
Proof.
  apply (Start_ignores_consume_loop_exit
           (Fixtures.state (Fixtures.pusher 10)
              [ConsumeLoopExited (Some "kafka: broker unreachable")])
           "apnsMessageHandler" Fixtures.queue);
    reflexivity.
Defined.

(** ** The stats loop *)

Section Counting.

Lemma count_app p (tr1 tr2 : list Event) :
  count p (tr1 ++ tr2) = (count p tr1 + count p tr2)%nat.
Proof. unfold count. by rewrite filter_app, length_app. Qed.

Lemma count_none p (tr : list Event) :
  Forall (fun e => p e = false) tr -> count p tr = 0%nat.
Proof.
  unfold count. induction 1 as [|e tr He _ IH]; [done|].
  rewrite filter_cons_False; [exact IH | congruence].
Qed.

Lemma Forall_concat_fmap {A B} (P : B -> Prop) (f : A -> list B) l :
  (forall x, Forall P (f x)) -> Forall P (concat (f <$> l)).
Proof.
  intros Hf. induction l as [|x l IH]; simpl; [constructor|].
  apply Forall_app. by split.
Qed.

End Counting.

Section StatsLoop.
Context {W : Type}.
Implicit Types st : St W.

(** [uint32] wrap-around does not show in the index: 256 divides
    2^32. *)
Lemma gcTimeIndex_eq m : gcTimeIndex m = (NumGC m + 255) mod 256.
Proof.
  unfold gcTimeIndex, wrapU32.
  apply Z.mod_mod_divide. exists (2 ^ 24). reflexivity.
Qed.

Lemma reportTo_spec rs : forall i num alloc heapObjects nextGC gcTime st,
  reportTo i rs num alloc heapObjects nextGC gcTime st =
    (Returned tt,
     {| this := this st;
        world := delivered rs num alloc heapObjects nextGC gcTime (world st);
        pending := pending st;
        trace := trace st ++
                 ((fun k =>
                     ReportGoStatsCall k num alloc heapObjects nextGC gcTime)
                  <$> seq i (length rs)) |}).
Proof.
  induction rs as [|r rs IH]; intros i num alloc heapObjects nextGC gcTime st.
  - cbn. rewrite app_nil_r. by destruct st.
  - cbn [reportTo]. unfold bind at 1, emit at 1.
    unfold bind at 1, call at 1. rewrite IH. simpl.
    by rewrite <- app_assoc.
Qed.

Lemma reportGoStats_body_spec rt st :
  let m := ReadMemStats rt in
  reportGoStats_body rt st =
    (Returned tt,
     {| this := this st;
        world := delivered (elems (StatsReporters (this st)))
                   (NumGoroutine rt) (Alloc m) (HeapObjects m) (NextGC m)
                   (index (PauseNs m) ((NumGC m + 255) mod 256)) (world st);
        pending := pending st;
        trace := trace st ++
                 sample_calls (length (elems (StatsReporters (this st)))) rt
                 ++ [Sleep (30 * Second)] |}).
Proof.
  intros m. unfold reportGoStats_body.
  unfold bind at 1, get_this at 1. unfold bind at 1.
  rewrite reportTo_spec. unfold emit. simpl.
  rewrite gcTimeIndex_eq. unfold sample_calls. fold m.
  by rewrite <- app_assoc.
Qed.

(** However long the loop is observed it is still running, it has
    left the struct and what is going to happen alone, and it has
    emitted one round of calls and one sleep per iteration. *)
Lemma reportGoStats_from_spec rt fuel : forall n st,
  exists w',
    reportGoStats_from fuel n rt st =
      (Looping,
       {| this := this st; world := w'; pending := pending st;
          trace := trace st ++
                   iterations (length (elems (StatsReporters (this st))))
                     rt n fuel |}).
Proof.
  induction fuel as [|fuel IH]; intros n st.
  - exists (world st). cbn. rewrite app_nil_r. by destruct st.
  - cbn [reportGoStats_from]. unfold bind at 1.
    rewrite reportGoStats_body_spec. cbv zeta.
    edestruct IH as [w' ->]. exists w'. simpl.
    unfold iterations. simpl. by rewrite <- !app_assoc.
Qed.

(** The same, with the world the sinks leave. *)
Lemma reportGoStats_from_world rt fuel : forall n st,
  reportGoStats_from fuel n rt st =
    (Looping,
     {| this := this st;
        world := ran (elems (StatsReporters (this st))) rt n fuel
                   (world st);
        pending := pending st;
        trace := trace st ++
                 iterations (length (elems (StatsReporters (this st))))
                   rt n fuel |}).
Proof.
  induction fuel as [|fuel IH]; intros n st.
  - cbn. rewrite app_nil_r. by destruct st.
  - cbn [reportGoStats_from]. unfold bind at 1.
    rewrite reportGoStats_body_spec. cbv zeta.
    rewrite IH. simpl.
    unfold iterations. simpl. by rewrite <- !app_assoc.
Qed.

Lemma iterations_quiet p k rt n fuel :
  (forall i a b c d e, p (ReportGoStatsCall i a b c d e) = false) ->
  (forall d, p (Sleep d) = false) ->
  count p (iterations k rt n fuel) = 0%nat.
Proof.
  intros Hcall Hsleep. apply count_none, Forall_concat_fmap. intros j.
  apply Forall_app. split.
  - unfold sample_calls. apply Forall_fmap, Forall_forall. intros i _.
    apply Hcall.
  - repeat constructor. apply Hsleep.
Qed.

End StatsLoop.

(** C7: the stats loop never returns: observed for any number of
    iterations it is still looping.  Iteration [n] delivers the sample
    read in that iteration to every configured stats sink, in the
    order of the slice, and then sleeps [30 * time.Second]: the trace
    has these calls and sleeps and nothing else, in particular no stop
    of the queue and no drain wait, and the world is the one the sinks
    leave after they were handed these samples.  The loop reads neither
    the [run] flag nor the signals: it leaves the struct and what is
    going to happen untouched, and it behaves the same on any struct
    with the same stats sinks, whatever is going to happen. *)
Theorem reportGoStats_runs_for_the_process_lifetime {W}
    (fuel : nat) (rt : nat -> Runtime) (st : St W) :
  let sinks := elems (StatsReporters (this st)) in
  let k := length sinks in
  exists st',
    reportGoStats fuel rt st = (Looping, st') /\
    this st' = this st /\
    pending st' = pending st /\
    world st' = ran sinks rt 0 fuel (world st) /\
    emitted st st' =
      concat ((fun n => sample_calls k (rt n) ++ [Sleep (30 * Second)])
              <$> seq 0 fuel) /\
    count is_stop (emitted st st') = 0%nat /\
    count is_drain (emitted st st') = 0%nat /\
    forall a hs,
      StatsReporters a = StatsReporters (this st) ->
      let st2 :=
        {| this := a; world := world st; pending := hs;
           trace := trace st |} in
      fst (reportGoStats fuel rt st2) = Looping /\
      world (snd (reportGoStats fuel rt st2)) = world st' /\
      emitted st2 (snd (reportGoStats fuel rt st2)) = emitted st st'.
Proof.
  intros sinks k. unfold reportGoStats.
  rewrite reportGoStats_from_world.
  eexists. split; [reflexivity|]. simpl.
  erewrite emitted_app; [|simpl; reflexivity].
  do 4 (split; [done|]).
  do 2 (split; [by apply iterations_quiet|]).
  intros a hs Ha.
  rewrite reportGoStats_from_world. simpl.
  erewrite emitted_app; [|simpl; reflexivity].
  by rewrite Ha.
Qed.

Lemma reportGoStats_runs_for_the_process_lifetime_witness :
  fst (reportGoStats 3 (fun n =>
         {| NumGoroutine := 8 + Z.of_nat n;
            ReadMemStats :=
              {| Alloc := 4096; HeapObjects := 12; NextGC := 8192;
                 NumGC := 2; PauseNs := [150; 90] ++ replicate 254 0 |} |})
       (Fixtures.state (set_run true (Fixtures.pusher 10))
          [SignalDelivered SIGTERM])) = Looping.
Proof.
  destruct (reportGoStats_runs_for_the_process_lifetime 3
              (fun n =>
                 {| NumGoroutine := 8 + Z.of_nat n;
                    ReadMemStats :=
                      {| Alloc := 4096; HeapObjects := 12; NextGC := 8192;
                         NumGC := 2;
                         PauseNs := [150; 90] ++ replicate 254 0 |} |})
              (Fixtures.state (Fixtures.pusher 10) []))
    as (st' & _ & _ & _ & _ & _ & _ & _ & Hany).
  apply (Hany (set_run true (Fixtures.pusher 10)) [SignalDelivered SIGTERM]).
  reflexivity.
Defined.

(** The run of three iterations over the two sinks of the fixture: each
    sink has been handed each of the three samples. *)
Example stats_loop_reaches_the_sinks :
  Fixtures.Sent
    (world (snd (reportGoStats 3 (fun n =>
         {| NumGoroutine := 8 + Z.of_nat n;
            ReadMemStats :=
              {| Alloc := 4096; HeapObjects := 12; NextGC := 8192;
                 NumGC := 2; PauseNs := [150; 90] ++ replicate 254 0 |} |})
       (Fixtures.state (Fixtures.pusher 10) [])))) =
  ["statsd"; "logger"; "statsd"; "logger"; "statsd"; "logger"].
Proof. vm_compute. reflexivity. Qed.

(** The runtime's discipline for [PauseNs] and the index the loop reads:
    right after a collection whose pause was [pause], the entry at
    [(NumGC+255) mod 256] is [pause], also when [NumGC] wraps around. *)
Lemma recordPause_last pause m :
  length (PauseNs m) = 256%nat ->
  index (PauseNs (recordPause pause m))
        ((NumGC (recordPause pause m) + 255) mod 256) = pause.
Proof.
  intros Hlen. unfold recordPause, index, wrapU32. simpl.
  replace (((NumGC m + 1) mod 2 ^ 32 + 255) mod 256)
    with (NumGC m mod 256).
  - rewrite list_lookup_insert_eq; [done|].
    rewrite Hlen. pose proof (Z.mod_pos_bound (NumGC m) 256). lia.
  - change (2 ^ 32) with 4294967296. Z.div_mod_to_equations. lia.
Qed.

(** C8: in every iteration, every stats sink is called with exactly
    five values: the goroutine count, [Alloc], [HeapObjects], [NextGC]
    and the entry [PauseNs[(NumGC+255) mod 256]] of the circular buffer
    of pauses (the [uint32] sum does not wrap past the index); right
    after the runtime has recorded a collection, that entry is the pause
    of this collection. *)
Theorem sample_has_five_fields {W} (rt : Runtime) (st : St W) :
  let m := ReadMemStats rt in
  let lastPause := index (PauseNs m) ((NumGC m + 255) mod 256) in
  let sinks := elems (StatsReporters (this st)) in
  exists st',
    reportGoStats_body rt st = (Returned tt, st') /\
    emitted st st' =
      ((fun i =>
          ReportGoStatsCall i (NumGoroutine rt) (Alloc m) (HeapObjects m)
            (NextGC m) lastPause) <$> seq 0 (length sinks)) ++
      [Sleep (30 * Second)] /\
    world st' =
      delivered sinks (NumGoroutine rt) (Alloc m) (HeapObjects m) (NextGC m)
        lastPause (world st) /\
    forall m0 pause,
      m = recordPause pause m0 ->
      length (PauseNs m0) = 256%nat ->
      lastPause = pause.
Proof.
  intros m lastPause sinks.
  eexists. split; [apply reportGoStats_body_spec|].
  erewrite emitted_app; [|simpl; reflexivity].
  repeat split.
  intros m0 pause Hm Hlen. subst lastPause. rewrite Hm.
  by apply recordPause_last.
Qed.

Lemma sample_has_five_fields_witness :
  index (PauseNs (recordPause 1234
           {| Alloc := 4096; HeapObjects := 12; NextGC := 8192;
              NumGC := 4294967295; PauseNs := replicate 256 7 |}))
        ((NumGC (recordPause 1234
           {| Alloc := 4096; HeapObjects := 12; NextGC := 8192;
              NumGC := 4294967295; PauseNs := replicate 256 7 |}) + 255)
         mod 256) = 1234.
Proof.
  destruct (sample_has_five_fields
              {| NumGoroutine := 8;
                 ReadMemStats :=
                   recordPause 1234
                     {| Alloc := 4096; HeapObjects := 12; NextGC := 8192;
                        NumGC := 4294967295;
                        PauseNs := replicate 256 7 |} |}
              (Fixtures.state (Fixtures.pusher 10) []))
    as (st' & _ & _ & _ & Hlast).
  apply (Hlast {| Alloc := 4096; HeapObjects := 12; NextGC := 8192;
                  NumGC := 4294967295; PauseNs := replicate 256 7 |});
    reflexivity.
Defined.

(** ** Construction *)

Section Construction.
Context {W : Type} (env : Env W).

Lemma GetInt_loaded configFile :
  Viper.GetInt (ToLower env) "gracefulShutdownTimeout"
    (loaded env configFile) =
  match Viper.settings (NewViperWithConfigFile env configFile)
          !! ToLower env "gracefulShutdownTimeout" with
  | Some v => int_val v
  | None => 10
  end.
Proof.
  unfold Viper.GetInt, loaded, Viper.SetDefault. simpl.
  destruct (Viper.settings _ !! _); [done|].
  by rewrite lookup_insert_eq.
Qed.

Ltac run_configure :=
  unfold NewAPNSPusher, configure, or_return, configureStatsReporters,
    configureFeedbackReporters, configureInvalidTokenHandlers,
    loadConfigurationDefaults, bind, get_this, modify_this, deref, ret;
  simpl.

Ltac next_step :=
  match goal with
  | |- context [match ?r with Ok _ => _ | Err _ => _ end] =>
      destruct r eqn:?; simpl
  end.

(** [NewAPNSPusher], step by step: either the first step that fails
    gives the error and no struct is returned, or the five steps
    succeed and the struct holds what they returned. *)
Lemma NewAPNSPusher_cases configFile certificatePath appName isProduction
    logger statsReporters db queueOrNil wg w :
  let cfg := Some (loaded env configFile) in
  let stats :=
    if is_nil statsReporters
    then pkg_configureStatsReporters env configFile logger appName cfg
    else Ok statsReporters in
  let args srs frs ths q :=
    {| mh_configFile := configFile;
       mh_certificatePath := certificatePath;
       mh_appName := appName;
       mh_isProduction := isProduction;
       mh_logger := logger;
       mh_pendingMessagesWG := Queue_PendingMessagesWaitGroup q;
       mh_statsReporters := srs;
       mh_feedbackReporters := frs;
       mh_invalidTokenHandlers := ths;
       mh_pushQueue := first_queue queueOrNil |} in
  (exists e,
     NewAPNSPusher env configFile certificatePath appName isProduction
       logger statsReporters db queueOrNil wg w = Returned (None, Some e) /\
     (stats = Err e \/
      exists srs, stats = Ok srs /\
      (pkg_configureFeedbackReporters env configFile logger cfg = Err e \/
       exists frs,
         pkg_configureFeedbackReporters env configFile logger cfg = Ok frs /\
       (pkg_configureInvalidTokenHandlers env cfg logger db = Err e \/
        exists ths,
          pkg_configureInvalidTokenHandlers env cfg logger db = Ok ths /\
        (NewKafkaConsumer env cfg logger = Err e \/
         exists q,
           NewKafkaConsumer env cfg logger = Ok q /\
           NewAPNSMessageHandler env (args srs frs ths q) = Err e))))) \/
  (exists srs frs ths q handler,
     stats = Ok srs /\
     pkg_configureFeedbackReporters env configFile logger cfg = Ok frs /\
     pkg_configureInvalidTokenHandlers env cfg logger db = Ok ths /\
     NewKafkaConsumer env cfg logger = Ok q /\
     NewAPNSMessageHandler env (args srs frs ths q) = Ok handler /\
     NewAPNSPusher env configFile certificatePath appName isProduction
       logger statsReporters db queueOrNil wg w =
     Returned
       (Some {| AppName := appName; CertificatePath := certificatePath;
                Config := cfg; ConfigFile := configFile;
                feedbackReporters := frs;
                GracefulShutdownTimeout :=
                  Viper.GetInt (ToLower env) "gracefulShutdownTimeout"
                    (loaded env configFile);
                InvalidTokenHandlers := ths;
                IsProduction := isProduction; Logger := logger;
                MessageHandler := Some handler;
                PendingMessagesWG := wg; Queue := Some q; run := false;
                StatsReporters := srs |},
        None)).
Proof.
  intros cfg stats args. subst stats cfg. run_configure.
  fold (loaded env configFile).
  destruct (is_nil statsReporters); simpl;
    repeat next_step;
    try (left; eexists; split; [reflexivity|]; naive_solver);
    right; do 5 eexists; repeat (split; [eassumption || reflexivity|]);
    reflexivity.
Qed.

(** [configure] and the methods it calls emit nothing. *)
Lemma configure_silent queue db statsReporters (st : St W) :
  trace (snd (configure env queue db statsReporters st)) = trace st.
Proof.
  run_configure.
  destruct (is_nil statsReporters); simpl; repeat next_step; reflexivity.
Qed.

End Construction.

(** C10: [NewAPNSPusher] returns either no struct and an error, or a
    struct and no error.  The steps run in the order stats reporters
    (skipped when the caller passes a non-nil slice), feedback
    reporters, invalid-token handlers, queue, message handler; when a
    step fails after the ones before it succeeded, the result is nil
    with the error of that step.  A struct is returned only when every
    step succeeded, and then it holds what the steps returned; the
    message handler was built with the queue's wait group and with the
    first element of [queueOrNil] as its push queue. *)
Theorem NewAPNSPusher_all_or_nothing {W} (env : Env W)
    configFile certificatePath appName isProduction logger
    statsReporters db queueOrNil wg w :
  let cfg := Some (loaded env configFile) in
  let stats :=
    if is_nil statsReporters
    then pkg_configureStatsReporters env configFile logger appName cfg
    else Ok statsReporters in
  let feedback := pkg_configureFeedbackReporters env configFile logger cfg in
  let handlers := pkg_configureInvalidTokenHandlers env cfg logger db in
  let consumer := NewKafkaConsumer env cfg logger in
  let args srs frs ths q :=
    {| mh_configFile := configFile;
       mh_certificatePath := certificatePath;
       mh_appName := appName;
       mh_isProduction := isProduction;
       mh_logger := logger;
       mh_pendingMessagesWG := Queue_PendingMessagesWaitGroup q;
       mh_statsReporters := srs;
       mh_feedbackReporters := frs;
       mh_invalidTokenHandlers := ths;
       mh_pushQueue := first_queue queueOrNil |} in
  exists res,
    NewAPNSPusher env configFile certificatePath appName isProduction
      logger statsReporters db queueOrNil wg w = Returned res /\
    (forall e, stats = Err e -> res = (None, Some e)) /\
    (forall e srs,
       stats = Ok srs -> feedback = Err e -> res = (None, Some e)) /\
    (forall e srs frs,
       stats = Ok srs -> feedback = Ok frs -> handlers = Err e ->
       res = (None, Some e)) /\
    (forall e srs frs ths,
       stats = Ok srs -> feedback = Ok frs -> handlers = Ok ths ->
       consumer = Err e -> res = (None, Some e)) /\
    (forall e srs frs ths q,
       stats = Ok srs -> feedback = Ok frs -> handlers = Ok ths ->
       consumer = Ok q ->
       NewAPNSMessageHandler env (args srs frs ths q) = Err e ->
       res = (None, Some e)) /\
    match res with
    | (None, Some e) => True
    | (Some a, None) =>
        exists q handler,
          stats = Ok (StatsReporters a) /\
          feedback = Ok (feedbackReporters a) /\
          handlers = Ok (InvalidTokenHandlers a) /\
          consumer = Ok q /\
          Queue a = Some q /\
          NewAPNSMessageHandler env
            (args (StatsReporters a) (feedbackReporters a)
                  (InvalidTokenHandlers a) q) = Ok handler /\
          MessageHandler a = Some handler /\
          forall q0 rest,
            queueOrNil = q0 :: rest ->
            mh_pushQueue
              (args (StatsReporters a) (feedbackReporters a)
                    (InvalidTokenHandlers a) q) = q0
    | (None, None) | (Some _, Some _) => False
    end.
Proof.
  cbv zeta.
  pose proof (NewAPNSPusher_cases env configFile certificatePath appName
                isProduction logger statsReporters db queueOrNil wg w)
    as Hcases.
  cbv zeta in Hcases.
  destruct Hcases
    as [(e & Hres & Hfail) | (srs & frs & ths & q & handler &
                              Hs & Hf & Hh & Hq & Hm & Hres)];
    rewrite Hres; clear Hres;
    (eexists; split; [reflexivity|]).
  - repeat split; intros;
      repeat match goal with
             | H : _ \/ _ |- _ => destruct H
             | H : exists _, _ |- _ => destruct H
             | H : _ /\ _ |- _ => destruct H
             end;
      congruence.
  - repeat split; try (intros; congruence).
    exists q, handler. simpl. repeat split; try done.
    by intros q0 rest ->.
Qed.

Lemma NewAPNSPusher_all_or_nothing_witness :
  NewAPNSPusher (Fixtures.env Fixtures.emptyConfig (Some Fixtures.QueueStep))
    "../config/test.yaml" "cert.pem" "testapp" false "logger"
    nil_slice None [Some "mockQueue"] "wg" (Fixtures.db ("SELECT 1", []) None)
  = Returned (None, Some "kafka: consumer failed").
Proof.
  destruct (NewAPNSPusher_all_or_nothing
              (Fixtures.env Fixtures.emptyConfig (Some Fixtures.QueueStep))
              "../config/test.yaml" "cert.pem" "testapp" false "logger"
              nil_slice None [Some "mockQueue"] "wg"
              (Fixtures.db ("SELECT 1", []) None))
    as (res & -> & _ & _ & _ & Hqueue & _).
  f_equal. eapply Hqueue; reflexivity.
Defined.

(** ** The drain timeout *)

Lemma wrap64_small z : - 2 ^ 63 <= z < 2 ^ 63 -> wrap64 z = z.
Proof.
  intros Hz. unfold wrap64. rewrite Z.mod_small; lia.
Qed.

Lemma int_range (i : int) : - 2 ^ 63 <= int_val i < 2 ^ 63.
Proof.
  destruct i as [v Hv]. simpl.
  apply andb_true_iff in Hv as [Hlo Hhi].
  apply Z.leb_le in Hlo. apply Z.ltb_lt in Hhi. lia.
Qed.

Lemma wrap64_fixed z : wrap64 z = z -> - 2 ^ 63 <= z < 2 ^ 63.
Proof.
  intros Heq. unfold wrap64 in Heq.
  pose proof (Z.mod_pos_bound (z + 2 ^ 63) (2 ^ 64)). lia.
Qed.

(** C6, as the spec states it, fails: the configuration sets the drain
    timeout to 9223372037 seconds; the pusher reads this value, and the
    drain wait that follows the stop of the queue is entered with a
    negative bound, not with 9223372037 seconds. *)
Lemma drain_bound_wraps_for_a_large_timeout :
  let st := Fixtures.state Fixtures.builtLarge [SignalDelivered SIGTERM] in
  NewAPNSPusher (Fixtures.env Fixtures.largeTimeoutConfig None)
    "../config/test.yaml" "cert.pem" "testapp" false "logger"
    nil_slice None [] "wg" (Fixtures.db ("SELECT 1", []) None)
  = Returned (Some Fixtures.builtLarge, None) /\
  GracefulShutdownTimeout Fixtures.builtLarge = 9223372037 /\
  last (emitted st (snd (Start st))) =
    Some (GracefulShutdown "kafka.pendingMessagesWG"
            (9223372037 * Second - 2 ^ 64)) /\
  9223372037 * Second - 2 ^ 64 < 0 /\
  9223372037 * Second - 2 ^ 64 <> 9223372037 * Second.
Proof.
  cbv zeta. split; [vm_compute; reflexivity|].
  split; [reflexivity|]. split; [vm_compute; reflexivity|].
  split; [reflexivity|]. discriminate.
Qed.

(** C6, amended: the pusher [NewAPNSPusher] returns has its
    [GracefulShutdownTimeout] read from the configuration under the key
    [gracefulShutdownTimeout]: the configured value, and 10 when the key
    is not configured; it is a Go [int].  When [Start] is signalled, the
    drain wait that follows the stop of the queue is bounded by
    [time.Duration(GracefulShutdownTimeout) * time.Second]; this is the
    configured number of seconds exactly when the number is between
    -9223372036 and 9223372036, and otherwise the 64-bit product has
    wrapped around. *)
Theorem drain_timeout_is_the_configured_one {W} (env : Env W)
    configFile certificatePath appName isProduction logger
    statsReporters db queueOrNil wg w a :
  NewAPNSPusher env configFile certificatePath appName isProduction
    logger statsReporters db queueOrNil wg w = Returned (Some a, None) ->
  GracefulShutdownTimeout a =
    match Viper.settings (NewViperWithConfigFile env configFile)
            !! ToLower env "gracefulShutdownTimeout" with
    | Some v => int_val v
    | None => 10
    end /\
  - 2 ^ 63 <= GracefulShutdownTimeout a < 2 ^ 63 /\
  (forall st sig rest,
     this st = a ->
     first_signal (pending st) = Some (sig, rest) ->
     exists st' before q,
       Start st = (Returned tt, st') /\
       Queue a = Some q /\
       emitted st st' =
         before ++
         [StopConsuming (queue_name q);
          GracefulShutdown (Queue_PendingMessagesWaitGroup q)
            (Duration_mul (Duration_of_int (GracefulShutdownTimeout a))
                          Second)]) /\
  (Duration_mul (Duration_of_int (GracefulShutdownTimeout a)) Second =
   GracefulShutdownTimeout a * Second <->
   - 9223372036 <= GracefulShutdownTimeout a <= 9223372036).
Proof.
  intros Hnew.
  destruct (NewAPNSPusher_cases env configFile certificatePath appName
              isProduction logger statsReporters db queueOrNil wg w)
    as [(e & He & _) | (srs & frs & ths & q & handler &
                        _ & _ & _ & _ & _ & Ha)];
    rewrite Hnew in *; [discriminate|].
  injection Ha as ->. simpl.
  assert (- 2 ^ 63 <=
          Viper.GetInt (ToLower env) "gracefulShutdownTimeout"
            (loaded env configFile) < 2 ^ 63) as Hint.
  { rewrite GetInt_loaded.
    destruct (Viper.settings _ !! _) as [v|]; [apply int_range|lia]. }
  split; [apply GetInt_loaded|]. split; [exact Hint|]. split.
  - intros st sig rest Hthis Hsig.
    eexists _, (startup (this st) handler q ++
                [LogWarnf "caught signal %v: terminating\n" sig;
                 SetRun false]), q.
    split; [apply (Start_signal st handler q sig rest);
            by rewrite ?Hthis|].
    split; [done|].
    erewrite emitted_app; [|simpl; reflexivity].
    rewrite Hthis. reflexivity.
  - unfold Duration_mul, Duration_of_int, Second, Nanosecond.
    rewrite (wrap64_small (Viper.GetInt _ _ _)) by exact Hint.
    split.
    + intros Heq. apply wrap64_fixed in Heq. lia.
    + intros Hrange. apply wrap64_small. lia.
Qed.

Lemma drain_timeout_is_the_configured_one_witness :
  GracefulShutdownTimeout Fixtures.built = 10 /\
  Duration_mul (Duration_of_int (GracefulShutdownTimeout Fixtures.built))
               Second = 10 * Second.
Proof.
  assert (NewAPNSPusher (Fixtures.env Fixtures.emptyConfig None)
            "../config/test.yaml" "cert.pem" "testapp" false "logger"
            nil_slice None [] "wg" (Fixtures.db ("SELECT 1", []) None)
          = Returned (Some Fixtures.built, None)) as Hnew
    by (vm_compute; reflexivity).
  destruct (drain_timeout_is_the_configured_one
              (Fixtures.env Fixtures.emptyConfig None)
              "../config/test.yaml" "cert.pem" "testapp" false "logger"
              nil_slice None [] "wg" (Fixtures.db ("SELECT 1", []) None)
              Fixtures.built Hnew) as (_ & _ & _ & Hexact).
  split; [reflexivity|].
  apply Hexact. simpl. lia.
Defined.

(** ** The goroutines *)

(** C9, as the spec states it, fails: [Start] is called on an instance,
    returns after a signal, and is called again on the same instance;
    the second call launches every loop a second time. *)
Lemma second_Start_launches_the_loops_again :
  let st :=
    Fixtures.state (Fixtures.pusher 10)
      [SignalDelivered SIGINT; SignalDelivered SIGTERM] in
  fst (StartTwice st) = Returned tt /\
  count (launches KHandleMessages) (trace (snd (StartTwice st))) = 2%nat /\
  count (launches KHandleResponses) (trace (snd (StartTwice st))) = 2%nat /\
  count (launches KConsumeLoop) (trace (snd (StartTwice st))) = 2%nat /\
  count (launches KReportGoStats) (trace (snd (StartTwice st))) = 2%nat.
Proof. repeat split; reflexivity. Qed.

(** C9, amended: every call of [Start] on an instance with a message
    handler and a queue launches exactly four goroutines, in this order:
    the intake loop on the queue's message channel, the response loop,
    the queue's consume loop and the stats loop, one of each, whether a
    signal then arrives or not.  No other method launches a goroutine:
    the stats loop and [configure] (with the methods it calls) launch
    none. *)
Theorem Start_launches_each_loop_once {W} (st : St W) handler q :
  MessageHandler (this st) = Some handler ->
  Queue (this st) = Some q ->
  filter (fun e => is_launch e = true) (emitted st (snd (Start st))) =
    [GoStmt (HandleMessages handler (Queue_MessagesChannel q));
     GoStmt (HandleResponses handler);
     GoStmt (ConsumeLoop (queue_name q));
     GoStmt ReportGoStatsLoop] /\
  (forall k, count (launches k) (emitted st (snd (Start st))) = 1%nat) /\
  (forall fuel rt (st0 : St W),
     count is_launch (emitted st0 (snd (reportGoStats fuel rt st0))) = 0%nat) /\
  (forall (env : Env W) queue db statsReporters (st0 : St W),
     count is_launch
       (emitted st0 (snd (configure env queue db statsReporters st0))) =
     0%nat).
Proof.
  intros Hh Hq. repeat split.
  - destruct (first_signal (pending st)) as [[sig rest]|] eqn:Hsig.
    + rewrite (Start_signal st handler q sig rest) by done. simpl.
      by erewrite emitted_app; [|simpl; reflexivity].
    + rewrite (Start_no_signal st handler q) by done. simpl.
      by erewrite emitted_app; [|simpl; reflexivity].
  - intros k.
    destruct (first_signal (pending st)) as [[sig rest]|] eqn:Hsig.
    + rewrite (Start_signal st handler q sig rest) by done. simpl.
      erewrite emitted_app; [|simpl; reflexivity]. by destruct k.
    + rewrite (Start_no_signal st handler q) by done. simpl.
      erewrite emitted_app; [|simpl; reflexivity]. by destruct k.
  - intros fuel rt st0. unfold reportGoStats.
    destruct (reportGoStats_from_spec rt fuel 0%nat st0) as [w' ->]. simpl.
    erewrite emitted_app; [|simpl; reflexivity].
    by apply iterations_quiet.
  - intros env queue db statsReporters st0.
    unfold emitted. rewrite configure_silent.
    by rewrite drop_all.
Qed.

Lemma Start_launches_each_loop_once_witness :
  count (launches KConsumeLoop)
    (emitted (Fixtures.state (Fixtures.pusher 10) [SignalDelivered SIGINT])
       (snd (Start (Fixtures.state (Fixtures.pusher 10)
                      [SignalDelivered SIGINT])))) = 1%nat.
Proof.
  exact (proj1 (proj2 (Start_launches_each_loop_once
                         (Fixtures.state (Fixtures.pusher 10)
                            [SignalDelivered SIGINT])
                         "apnsMessageHandler" Fixtures.queue
                         eq_refl eq_refl))
               KConsumeLoop).
Defined.

(** ** Fan-out *)

Section FanOut.
Context {W : Type}.
Implicit Types st : St W.

Lemma logged_of_failure (tr : list Event) (e : string) :
  logged tr = failures tr ->
  (exists i token, HandleTokenCall i token (Some e) ∈ tr) \/
  (exists i jres, SendFeedbackCall i jres (Some e) ∈ tr) ->
  LogError e ∈ tr.
Proof.
  intros Heq Hcall.
  assert (e ∈ failures tr) as Hin.
  { apply list_elem_of_omap.
    destruct Hcall as [(i & token & H)|(i & jres & H)]; eauto. }
  rewrite <- Heq in Hin. apply list_elem_of_omap in Hin.
  destruct Hin as ([] & Hx & Hsome); simplify_eq. done.
Qed.

Lemma handleInvalidTokenFrom_spec token hs : forall i st,
  exists new,
    handleInvalidTokenFrom i hs token st =
      (Returned tt,
       {| this := this st; world := handled hs token (world st);
          pending := pending st; trace := trace st ++ new |}) /\
    token_calls new = (fun k => (k, token)) <$> seq i (length hs) /\
    logged new = failures new /\
    forall j h,
      hs !! j = Some h ->
      HandleTokenCall (i + j) token
        (fst (HandleToken h token
                (handled (take j hs) token (world st)))) ∈ new.
Proof.
  induction hs as [|h0 hs IH]; intros i st.
  - exists []. cbn. rewrite app_nil_r. by destruct st.
  - cbn [handleInvalidTokenFrom]. unfold bind at 1, call at 1.
    destruct (HandleToken h0 token (world st)) as [err w1] eqn:Hcall.
    unfold bind at 1, emit at 1. unfold bind at 1.
    destruct err as [e|]; simpl;
      match goal with
      | |- context [handleInvalidTokenFrom (S i) hs token ?s] =>
          destruct (IH (S i) s) as (new & Hrun & Hcalls & Hlog & Hin)
      end;
      rewrite Hrun; simpl in *;
      [exists (HandleTokenCall i token (Some e) :: LogError e :: new)
      |exists (HandleTokenCall i token None :: new)];
      (split; [|split; [|split]]);
      try (unfold handled; simpl; rewrite Hcall; simpl;
           by rewrite <- ?app_assoc);
      try (unfold token_calls in *; cbn; rewrite Hcalls; reflexivity);
      try (unfold logged, failures in *; cbn; rewrite Hlog; reflexivity).
    all: intros [|j] h Hh; simpl in Hh;
      [ injection Hh as ->; simpl; rewrite Hcall, Nat.add_0_r; simpl;
        apply elem_of_cons; by left
      | replace (i + S j)%nat with (S i + j)%nat by lia;
        specialize (Hin j h Hh); unfold handled in *; simpl;
        rewrite Hcall; simpl;
        repeat (apply elem_of_cons; right); exact Hin ].
Qed.



End FanOut.




(** The run behind the witness: the second of three sinks fails, the
    third is still served, the error is logged, and both healthy sinks
    have the payload. *)
Example feedback_with_a_failing_sink :
  let r :=
    sendToFeedbackReporters Fixtures.marshal
      (mk_slice [Fixtures.KafkaProducer;
                 Fixtures.FailingReporter "kafka: timed out";
                 Fixtures.KafkaProducer])
      (Fixtures.Encodable "{}")
      (Fixtures.state (Fixtures.pusher 10) []) in
  fst r = Returned None /\
  trace (snd r) =
    [SendFeedbackCall 0 "{}" None;
     SendFeedbackCall 1 "{}" (Some "kafka: timed out");
     LogError "kafka: timed out";
     SendFeedbackCall 2 "{}" None] /\
  Fixtures.Sent (world (snd r)) = ["{}"; "{}"].
Proof. repeat split; reflexivity. Qed.

(** C4: when the payload of a feedback fan-out cannot be serialized,
    [sendToFeedbackReporters] returns the serialization error and
    nothing else has happened: no sink was called, nothing was logged,
    the world is as it was. *)
Theorem unserializable_feedback_reaches_no_sink {W P}
    (marshal : P -> result string)
    (reporters : slice (FeedbackReporter W)) (res : P) (e : string)
    (st : St W) :
  marshal res = Err e ->
  exists st',
    sendToFeedbackReporters marshal reporters res st =
      (Returned (Some e), st') /\
    st' = st /\
    emitted st st' = [] /\
    feedback_calls (emitted st st') = [].
Proof.
  intros Herr. exists st. unfold sendToFeedbackReporters. rewrite Herr.
  split; [done|]. split; [done|].
  unfold emitted. by rewrite drop_all.
Qed.

(** The test [should return an error if res cannot be marshaled]. *)
Lemma unserializable_feedback_reaches_no_sink_witness :
  exists st',
    sendToFeedbackReporters Fixtures.marshal
      (mk_slice [Fixtures.KafkaProducer]) Fixtures.ChanInt
      (Fixtures.state (Fixtures.pusher 10) []) =
      (Returned (Some "json: unsupported type: chan int"), st') /\
    st' = Fixtures.state (Fixtures.pusher 10) [] /\
    emitted (Fixtures.state (Fixtures.pusher 10) []) st' = [] /\
    feedback_calls (emitted (Fixtures.state (Fixtures.pusher 10) []) st') =
    [].
Proof.
  apply (unserializable_feedback_reaches_no_sink Fixtures.marshal
           (mk_slice [Fixtures.KafkaProducer]) Fixtures.ChanInt
           "json: unsupported type: chan int"
           (Fixtures.state (Fixtures.pusher 10) [])).
  reflexivity.
Defined.

(** C5: a handler whose store answers the delete with an error, at
    position [i] of the handlers: [handleInvalidToken] still calls it
    with the token (as it calls every handler, each acting on its
    store), logs the error, and returns normally; it has no error
    result. *)
Theorem failing_token_handler_is_invoked_and_swallowed {W}
    (handlers : list (InvalidTokenHandler W)) (i : nat)
    (h : InvalidTokenHandler W) (token e : string) (st : St W) :
  handlers !! i = Some h ->
  fst (HandleToken h token (handled (take i handlers) token (world st))) =
    Some e ->
  exists st',
    handleInvalidToken (mk_slice handlers) token st = (Returned tt, st') /\
    HandleTokenCall i token (Some e) ∈ emitted st st' /\
    LogError e ∈ emitted st st' /\
    token_calls (emitted st st') =
      (fun k => (k, token)) <$> seq 0 (length handlers) /\
    world st' = handled handlers token (world st).
Proof.
  intros Hi He. unfold handleInvalidToken. simpl.
  destruct (handleInvalidTokenFrom_spec token handlers 0%nat st)
    as (new & -> & Hcalls & Hlog & Hin).
  eexists. split; [reflexivity|].
  erewrite emitted_app; [|simpl; reflexivity]. simpl.
  specialize (Hin i h Hi). rewrite He in Hin. simpl in Hin.
  split; [done|]. split; [|done].
  apply logged_of_failure; [done|]. left. eauto.
Qed.

(** The test [should be successful]: the store does not fail, the
    delete runs with the token and nothing is logged. *)
Example handle_token_successful (first : string * list string)
    (token : string) :
  let r :=
    handleInvalidToken (mk_slice [Fixtures.TokenPG "test_apns"]) token
      {| this := Fixtures.pusher 10; world := Fixtures.db first None;
         pending := []; trace := [] |} in
  fst r = Returned tt /\
  Fixtures.Execs (world (snd r)) =
    [first; ("DELETE FROM test_apns WHERE token = ?0;", [token])] /\
  trace (snd r) = [HandleTokenCall 0 token None].
Proof. repeat split; reflexivity. Qed.

(** The test [should fail silently]: the store is set to fail, the
    handler still runs its delete with the token. *)
Lemma failing_token_handler_is_invoked_and_swallowed_witness :
  exists st',
    handleInvalidToken (mk_slice [Fixtures.TokenPG "test_apns"])
      "8fd5a6bd" {| this := Fixtures.pusher 10;
                    world := Fixtures.db ("SELECT 1", []) (Some "pg: error");
                    pending := []; trace := [] |} = (Returned tt, st') /\
    Fixtures.Execs (world st') =
      [("SELECT 1", []);
       ("DELETE FROM test_apns WHERE token = ?0;", ["8fd5a6bd"])] /\
    LogError "pg: error" ∈ trace st'.
Proof.
  destruct (failing_token_handler_is_invoked_and_swallowed
              [Fixtures.TokenPG "test_apns"] 0 (Fixtures.TokenPG "test_apns")
              "8fd5a6bd" "pg: error"
              {| this := Fixtures.pusher 10;
                 world := Fixtures.db ("SELECT 1", []) (Some "pg: error");
                 pending := []; trace := [] |} eq_refl eq_refl)
    as (st' & Hrun & _ & Hlog & _ & Hworld).
  exists st'. split; [exact Hrun|]. split.
  - rewrite Hworld. reflexivity.
  - exact Hlog.
Defined.

(** * Further properties of [apns.go] *)

(** ** [Start] on a struct that was not configured *)

(** X3: [Start] on a struct whose message handler or whose queue is nil
    panics before it has launched anything: [run] has been set, and no
    goroutine has been launched, no signal registered, no queue stopped
    and no drain wait entered; the world outside and what is going to
    happen are untouched. *)
Theorem Start_unconfigured_panics {W} (st : St W) :
  MessageHandler (this st) = None \/ Queue (this st) = None ->
  exists st',
    Start st = (Panicked, st') /\
    run (this st') = true /\
    count is_launch (emitted st st') = 0%nat /\
    count is_notify (emitted st st') = 0%nat /\
    count is_stop (emitted st st') = 0%nat /\
    count is_drain (emitted st st') = 0%nat /\
    world st' = world st /\
    pending st' = pending st.
Proof.
  intros Hnil.
  eexists. split.
  - unfold Start, bind, modify_this, emit, get_this, deref. simpl.
    destruct Hnil as [H|H]; rewrite H.
    + reflexivity.
    + destruct (MessageHandler (this st)); reflexivity.
  - simpl. erewrite emitted_app;
      [|simpl; rewrite <- app_assoc; reflexivity].
    done.
Qed.

Lemma Start_unconfigured_panics_witness :
  exists st',
    Start (Fixtures.state
             (set_MessageHandler None (Fixtures.pusher 10))
             [SignalDelivered SIGTERM]) = (Panicked, st') /\
    run (this st') = true.
Proof.
  destruct (Start_unconfigured_panics
              (Fixtures.state
                 (set_MessageHandler None (Fixtures.pusher 10))
                 [SignalDelivered SIGTERM])
              (or_introl eq_refl))
    as (st' & Hrun & Hflag & _).
  exists st'. split; [exact Hrun | exact Hflag].
Defined.

(** ** The struct [NewAPNSPusher] returns *)

Section Constructed.
Context {W : Type} (env : Env W).

(** A struct that [NewAPNSPusher] returns has its queue and its message
    handler. *)
Lemma NewAPNSPusher_ready configFile certificatePath appName isProduction
    logger statsReporters db queueOrNil wg w a :
  NewAPNSPusher env configFile certificatePath appName isProduction
    logger statsReporters db queueOrNil wg w = Returned (Some a, None) ->
  exists q handler,
    Queue a = Some q /\
    MessageHandler a = Some handler /\
    NewKafkaConsumer env (Some (loaded env configFile)) logger = Ok q /\
    GracefulShutdownTimeout a =
      Viper.GetInt (ToLower env) "gracefulShutdownTimeout"
        (loaded env configFile) /\
    ConfigFile a = configFile /\
    CertificatePath a = certificatePath /\
    exists srs frs ths,
      NewAPNSMessageHandler env
        {| mh_configFile := configFile;
           mh_certificatePath := certificatePath;
           mh_appName := appName;
           mh_isProduction := isProduction;
           mh_logger := logger;
           mh_pendingMessagesWG := Queue_PendingMessagesWaitGroup q;
           mh_statsReporters := srs;
           mh_feedbackReporters := frs;
           mh_invalidTokenHandlers := ths;
           mh_pushQueue := first_queue queueOrNil |} = Ok handler.
Proof.
  intros Hnew.
  pose proof (NewAPNSPusher_cases env configFile certificatePath appName
                isProduction logger statsReporters db queueOrNil wg w)
    as Hcases.
  cbv zeta in Hcases.
  destruct Hcases
    as [(e & He & _) | (srs & frs & ths & q & handler &
                        _ & _ & _ & Hq & Hm & Ha)];
    rewrite Hnew in *; [discriminate|].
  injection Ha as Ha. subst a. simpl.
  exists q, handler. repeat split; try done. by exists srs, frs, ths.
Qed.

End Constructed.

(** X5: the counter of the drain.  The wait group [Start] hands to
    [GracefulShutdown] is the queue's, which is also the one the message
    handler was built with.  The wait group [NewAPNSPusher] allocates
    for the struct plays no part: with another one, [Start] has the same
    outcome and the same trace. *)
Theorem drain_waits_on_the_handlers_counter {W} (env : Env W)
    configFile certificatePath appName isProduction logger
    statsReporters db queueOrNil wg w a :
  NewAPNSPusher env configFile certificatePath appName isProduction
    logger statsReporters db queueOrNil wg w = Returned (Some a, None) ->
  exists q handler args,
    Queue a = Some q /\
    MessageHandler a = Some handler /\
    NewAPNSMessageHandler env args = Ok handler /\
    mh_pendingMessagesWG args = Queue_PendingMessagesWaitGroup q /\
    (forall (st : St W) sig rest,
       this st = a ->
       first_signal (pending st) = Some (sig, rest) ->
       last (emitted st (snd (Start st))) =
       Some (GracefulShutdown (mh_pendingMessagesWG args)
               (Duration_mul (Duration_of_int (GracefulShutdownTimeout a))
                             Second))) /\
    (forall wg' w',
       exists a',
         NewAPNSPusher env configFile certificatePath appName isProduction
           logger statsReporters db queueOrNil wg' w' =
         Returned (Some a', None) /\
         PendingMessagesWG a' = wg' /\
         forall st : St W,
           fst (Start (with_this a' st)) = fst (Start (with_this a st)) /\
           trace (snd (Start (with_this a' st))) =
           trace (snd (Start (with_this a st)))).
Proof.
  intros Hnew.
  pose proof (NewAPNSPusher_cases env configFile certificatePath appName
                isProduction logger statsReporters db queueOrNil wg w)
    as Hcases.
  cbv zeta in Hcases.
  destruct Hcases
    as [(e & He & _) | (srs & frs & ths & q & handler &
                        Hs & Hf & Ht & Hq & Hm & Ha)];
    rewrite Hnew in *; [discriminate|].
  injection Ha as Ha. subst a.
  eexists q, handler, _. split; [done|]. split; [done|].
  split; [exact Hm|]. split; [done|]. split.
  - intros st sig rest Hthis Hsig.
    rewrite (Start_signal st handler q sig rest) by (by rewrite ?Hthis).
    simpl. erewrite emitted_app; [|simpl; reflexivity].
    rewrite Hthis. reflexivity.
  - intros wg' w'.
    pose proof (NewAPNSPusher_cases env configFile certificatePath appName
                  isProduction logger statsReporters db queueOrNil wg' w')
      as Hcases'.
    cbv zeta in Hcases'.
    destruct Hcases'
      as [(e & He & Hfail) | (srs' & frs' & ths' & q' & handler' &
                              Hs' & Hf' & Ht' & Hq' & Hm' & Ha')].
    + exfalso.
      repeat match goal with
             | H : _ \/ _ |- _ => destruct H
             | H : exists _, _ |- _ => destruct H
             | H : _ /\ _ |- _ => destruct H
             end; congruence.
    + assert (srs' = srs) by congruence.
      assert (frs' = frs) by congruence.
      assert (ths' = ths) by congruence.
      assert (q' = q) by congruence. subst.
      assert (handler' = handler) by congruence. subst.
      eexists. split; [exact Ha'|]. split; [done|].
      intros st.
      destruct (first_signal (pending st)) as [[sig rest]|] eqn:Hsig.
      * rewrite (Start_signal (with_this _ st) handler q sig rest) by done.
        by rewrite (Start_signal (with_this _ st) handler q sig rest)
          by done.
      * rewrite (Start_no_signal (with_this _ st) handler q) by done.
        by rewrite (Start_no_signal (with_this _ st) handler q) by done.
Qed.

Lemma drain_waits_on_the_handlers_counter_witness :
  last (emitted
          (Fixtures.state Fixtures.built [SignalDelivered SIGTERM])
          (snd (Start (Fixtures.state Fixtures.built
                         [SignalDelivered SIGTERM])))) =
  Some (GracefulShutdown "kafka.pendingMessagesWG" (10 * Second)).
Proof.
  assert (NewAPNSPusher (Fixtures.env Fixtures.emptyConfig None)
            "../config/test.yaml" "cert.pem" "testapp" false "logger"
            nil_slice None [] "wg" (Fixtures.db ("SELECT 1", []) None)
          = Returned (Some Fixtures.built, None)) as Hnew
    by (vm_compute; reflexivity).
  destruct (drain_waits_on_the_handlers_counter
              (Fixtures.env Fixtures.emptyConfig None)
              "../config/test.yaml" "cert.pem" "testapp" false "logger"
              nil_slice None [] "wg" (Fixtures.db ("SELECT 1", []) None)
              Fixtures.built Hnew)
    as (q & handler & args & Hq & _ & _ & Hwg & Hlast & _).
  rewrite (Hlast (Fixtures.state Fixtures.built [SignalDelivered SIGTERM])
             SIGTERM [] eq_refl eq_refl).
  rewrite Hwg. simpl in Hq. injection Hq as <-. reflexivity.
Defined.

(** ** The bound of the drain wait *)

Lemma wrap64_range z : - 2 ^ 63 <= wrap64 z < 2 ^ 63.
Proof.
  unfold wrap64. pose proof (Z.mod_pos_bound (z + 2 ^ 63) (2 ^ 64)). lia.
Qed.

(** X6: the bound [Start] hands to [GracefulShutdown] is the configured
    number of seconds exactly when that number is between -9223372036
    and 9223372036: outside, the 64-bit product
    [time.Duration(GracefulShutdownTimeout) * time.Second] has wrapped.
    In particular a timeout from 9223372037 to 18446744073 seconds gives
    a negative bound. *)
Theorem drain_bound_is_exact_iff_in_range {W} (st : St W) handler q sig rest :
  MessageHandler (this st) = Some handler ->
  Queue (this st) = Some q ->
  first_signal (pending st) = Some (sig, rest) ->
  let t := GracefulShutdownTimeout (this st) in
  exists d,
    last (emitted st (snd (Start st))) =
      Some (GracefulShutdown (Queue_PendingMessagesWaitGroup q) d) /\
    - 2 ^ 63 <= d < 2 ^ 63 /\
    (d = t * Second <-> - 9223372036 <= t <= 9223372036) /\
    (9223372037 <= t <= 18446744073 -> d = t * Second - 2 ^ 64 /\ d < 0).
Proof.
  intros Hh Hq Hsig t.
  exists (Duration_mul (Duration_of_int t) Second).
  split.
  - rewrite (Start_signal st handler q sig rest) by done. simpl.
    by erewrite emitted_app; [|simpl; reflexivity].
  - unfold Duration_mul, Duration_of_int, Second, Nanosecond.
    split; [apply wrap64_range|]. split; [split|].
    + intros Heq.
      pose proof (wrap64_range (wrap64 t * (1000000000 * 1))) as Hr.
      rewrite Heq in Hr. lia.
    + intros Hrange. rewrite (wrap64_small t) by lia.
      apply wrap64_small. lia.
    + intros Hrange. rewrite (wrap64_small t) by lia.
      unfold wrap64.
      replace ((t * (1000000000 * 1) + 2 ^ 63) mod 2 ^ 64)
        with (t * (1000000000 * 1) + 2 ^ 63 - 2 ^ 64).
      * lia.
      * apply (Z.mod_unique_pos _ _ 1); lia.
Qed.

Lemma drain_bound_is_exact_iff_in_range_witness :
  exists d,
    last (emitted
            (Fixtures.state (Fixtures.pusher 9223372037)
               [SignalDelivered SIGTERM])
            (snd (Start (Fixtures.state (Fixtures.pusher 9223372037)
                           [SignalDelivered SIGTERM])))) =
      Some (GracefulShutdown "kafka.pendingMessagesWG" d) /\
    d = 9223372037 * Second - 2 ^ 64 /\ d < 0.
Proof.
  destruct (drain_bound_is_exact_iff_in_range
              (Fixtures.state (Fixtures.pusher 9223372037)
                 [SignalDelivered SIGTERM])
              "apnsMessageHandler" Fixtures.queue SIGTERM []
              eq_refl eq_refl eq_refl)
    as (d & Hlast & _ & _ & Hwrap).
  exists d. split; [exact Hlast|].
  apply Hwrap. simpl. lia.
Defined.

(** ** [Start] called again *)

(** X10: [Start] called on an instance, and called again after it
    returned.  The second call sets [run] again and waits for the next
    signal; once both calls have returned every loop has been launched
    twice and the queue stopped and drained twice.  When no second
    signal comes, the second call stays blocked, with every loop
    launched twice. *)
Theorem Start_twice_launches_twice {W} (st : St W) handler q sig1 rest1 :
  MessageHandler (this st) = Some handler ->
  Queue (this st) = Some q ->
  first_signal (pending st) = Some (sig1, rest1) ->
  (forall k,
     count (launches k) (emitted st (snd (StartTwice st))) = 2%nat) /\
  match first_signal rest1 with
  | Some (sig2, rest2) =>
      fst (StartTwice st) = Returned tt /\
      run (this (snd (StartTwice st))) = false /\
      pending (snd (StartTwice st)) = rest2 /\
      count is_stop (emitted st (snd (StartTwice st))) = 2%nat /\
      count is_drain (emitted st (snd (StartTwice st))) = 2%nat
  | None =>
      fst (StartTwice st) = Blocked /\
      run (this (snd (StartTwice st))) = true /\
      count is_stop (emitted st (snd (StartTwice st))) = 1%nat /\
      count is_drain (emitted st (snd (StartTwice st))) = 1%nat
  end.
Proof.
  intros Hh Hq Hsig. unfold StartTwice.
  rewrite (Start_signal st handler q sig1 rest1) by done.
  destruct (first_signal rest1) as [[sig2 rest2]|] eqn:Hsig2.
  - erewrite (Start_signal _ handler q sig2 rest2) by done. simpl.
    erewrite emitted_app; [|simpl; rewrite <- app_assoc; reflexivity].
    split; [intros k; by destruct k|]. done.
  - erewrite (Start_no_signal _ handler q) by done. simpl.
    erewrite emitted_app; [|simpl; rewrite <- app_assoc; reflexivity].
    split; [intros k; by destruct k|]. done.
Qed.

Lemma Start_twice_launches_twice_witness :
  count (launches KReportGoStats)
    (emitted (Fixtures.state (Fixtures.pusher 10) [SignalDelivered SIGINT])
       (snd (StartTwice (Fixtures.state (Fixtures.pusher 10)
                           [SignalDelivered SIGINT])))) = 2%nat.
Proof.
  exact (proj1 (Start_twice_launches_twice
                  (Fixtures.state (Fixtures.pusher 10)
                     [SignalDelivered SIGINT])
                  "apnsMessageHandler" Fixtures.queue SIGINT []
                  eq_refl eq_refl eq_refl)
               KReportGoStats).
Defined.

(** ** The arguments of [NewAPNSPusher] *)

(** X1: stats reporters handed to [NewAPNSPusher] are used as they are.
    With a non-nil [statsReporters], also an empty one, the
    package-level [configureStatsReporters] is not consulted: whatever
    it would return, [NewAPNSPusher] returns the same, and the struct it
    returns holds the given slice. *)
Theorem injected_stats_reporters_are_used {W} (env : Env W) f
    configFile certificatePath appName isProduction logger
    statsReporters db queueOrNil wg w :
  is_nil statsReporters = false ->
  NewAPNSPusher (with_stats_constructor f env) configFile certificatePath
    appName isProduction logger statsReporters db queueOrNil wg w =
  NewAPNSPusher env configFile certificatePath
    appName isProduction logger statsReporters db queueOrNil wg w /\
  forall a err,
    NewAPNSPusher env configFile certificatePath
      appName isProduction logger statsReporters db queueOrNil wg w =
    Returned (Some a, err) ->
    StatsReporters a = statsReporters.
Proof.
  intros Hgiven. split.
  - unfold NewAPNSPusher, configure, or_return, configureStatsReporters,
      configureFeedbackReporters, configureInvalidTokenHandlers,
      loadConfigurationDefaults, bind, get_this, modify_this, deref, ret.
    simpl. rewrite Hgiven. reflexivity.
  - intros a err Hnew.
    pose proof (NewAPNSPusher_cases env configFile certificatePath appName
                  isProduction logger statsReporters db queueOrNil wg w)
      as Hcases.
    cbv zeta in Hcases. rewrite Hgiven in Hcases.
    destruct Hcases
      as [(e & He & _) | (srs & frs & ths & q & handler &
                          Hs & _ & _ & _ & _ & Ha)];
      rewrite Hnew in *; [discriminate|].
    injection Ha as Ha _. subst a. simpl. congruence.
Qed.

Lemma injected_stats_reporters_are_used_witness :
  NewAPNSPusher
    (with_stats_constructor (fun _ _ _ _ => Err "statsd: no such host")
       (Fixtures.env Fixtures.emptyConfig None))
    "../config/test.yaml" "cert.pem" "testapp" false "logger"
    (mk_slice []) None [] "wg" (Fixtures.db ("SELECT 1", []) None) =
  NewAPNSPusher (Fixtures.env Fixtures.emptyConfig None)
    "../config/test.yaml" "cert.pem" "testapp" false "logger"
    (mk_slice []) None [] "wg" (Fixtures.db ("SELECT 1", []) None).
Proof.
  exact (proj1 (injected_stats_reporters_are_used
                  (Fixtures.env Fixtures.emptyConfig None)
                  (fun _ _ _ _ => Err "statsd: no such host")
                  "../config/test.yaml" "cert.pem" "testapp" false "logger"
                  (mk_slice []) None [] "wg"
                  (Fixtures.db ("SELECT 1", []) None) eq_refl)).
Defined.

(** X2: of the variadic [queueOrNil] only the first element counts.
    Further elements change nothing; a nil first element is the same as
    no element; and with no element the message handler is built with a
    nil push queue. *)
Theorem only_the_first_queue_is_used {W} (env : Env W)
    configFile certificatePath appName isProduction logger
    statsReporters db wg w :
  (forall q rest,
     NewAPNSPusher env configFile certificatePath appName isProduction
       logger statsReporters db (q :: rest) wg w =
     NewAPNSPusher env configFile certificatePath appName isProduction
       logger statsReporters db [q] wg w) /\
  NewAPNSPusher env configFile certificatePath appName isProduction
    logger statsReporters db [None] wg w =
  NewAPNSPusher env configFile certificatePath appName isProduction
    logger statsReporters db [] wg w /\
  forall a,
    NewAPNSPusher env configFile certificatePath appName isProduction
      logger statsReporters db [] wg w = Returned (Some a, None) ->
    exists q handler srs frs ths,
      MessageHandler a = Some handler /\
      NewAPNSMessageHandler env
        {| mh_configFile := configFile;
           mh_certificatePath := certificatePath;
           mh_appName := appName;
           mh_isProduction := isProduction;
           mh_logger := logger;
           mh_pendingMessagesWG := Queue_PendingMessagesWaitGroup q;
           mh_statsReporters := srs;
           mh_feedbackReporters := frs;
           mh_invalidTokenHandlers := ths;
           mh_pushQueue := None |} = Ok handler.
Proof.
  split; [done|]. split; [done|].
  intros a Hnew.
  destruct (NewAPNSPusher_ready env _ _ _ _ _ _ _ _ _ _ _ Hnew)
    as (q & handler & _ & Hh & _ & _ & _ & _ & srs & frs & ths & Hm).
  by exists q, handler, srs, frs, ths.
Qed.

Lemma only_the_first_queue_is_used_witness :
  exists q handler srs frs ths,
    MessageHandler Fixtures.built = Some handler /\
    NewAPNSMessageHandler (Fixtures.env Fixtures.emptyConfig None)
      {| mh_configFile := "../config/test.yaml";
         mh_certificatePath := "cert.pem";
         mh_appName := "testapp";
         mh_isProduction := false;
         mh_logger := "logger";
         mh_pendingMessagesWG := Queue_PendingMessagesWaitGroup q;
         mh_statsReporters := srs;
         mh_feedbackReporters := frs;
         mh_invalidTokenHandlers := ths;
         mh_pushQueue := None |} = Ok handler.
Proof.
  assert (NewAPNSPusher (Fixtures.env Fixtures.emptyConfig None)
            "../config/test.yaml" "cert.pem" "testapp" false "logger"
            nil_slice None [] "wg" (Fixtures.db ("SELECT 1", []) None)
          = Returned (Some Fixtures.built, None)) as Hnew
    by (vm_compute; reflexivity).
  exact (proj2 (proj2 (only_the_first_queue_is_used
                         (Fixtures.env Fixtures.emptyConfig None)
                         "../config/test.yaml" "cert.pem" "testapp" false
                         "logger" nil_slice None "wg"
                         (Fixtures.db ("SELECT 1", []) None)))
               Fixtures.built Hnew).
Defined.

(** ** More on the stats loop *)

(** X7: the index [(m.NumGC+255)%256] never leaves the 256 entries of
    [PauseNs]: it is between 0 and 255 for every [NumGC], so the read
    cannot fail.  Before the first collection ([NumGC] is 0) it is 255,
    the last entry; after that it is [(NumGC-1) mod 256], also for the
    largest [uint32], where the sum wraps. *)
Theorem gcTimeIndex_stays_in_the_buffer (m : MemStats) :
  0 <= gcTimeIndex m < 256 /\
  (length (PauseNs m) = 256%nat ->
   PauseNs m !! Z.to_nat (gcTimeIndex m) =
   Some (index (PauseNs m) (gcTimeIndex m))) /\
  (NumGC m = 0 -> gcTimeIndex m = 255) /\
  (0 < NumGC m < 2 ^ 32 -> gcTimeIndex m = (NumGC m - 1) mod 256).
Proof.
  assert (0 <= gcTimeIndex m < 256) as Hbound.
  { unfold gcTimeIndex. apply Z.mod_pos_bound. lia. }
  split; [exact Hbound|]. split; [|split].
  - intros Hlen. unfold index.
    destruct (PauseNs m !! Z.to_nat (gcTimeIndex m)) as [x|] eqn:Hx;
      [done|].
    apply lookup_ge_None in Hx. lia.
  - intros H0. unfold gcTimeIndex, wrapU32. rewrite H0. reflexivity.
  - intros Hpos. rewrite gcTimeIndex_eq.
    replace (NumGC m + 255) with (NumGC m - 1 + 1 * 256) by lia.
    apply Z.mod_add. lia.
Qed.

Lemma gcTimeIndex_stays_in_the_buffer_witness :
  gcTimeIndex {| Alloc := 4096; HeapObjects := 12; NextGC := 8192;
                 NumGC := 4294967295; PauseNs := replicate 256 7 |} =
  4294967294 mod 256.
Proof.
  apply (gcTimeIndex_stays_in_the_buffer
           {| Alloc := 4096; HeapObjects := 12; NextGC := 8192;
              NumGC := 4294967295; PauseNs := replicate 256 7 |}).
  simpl. lia.
Defined.

Section StatsCounting.
Context {W : Type}.
Implicit Types st : St W.

Lemma slept_app tr1 tr2 : slept (tr1 ++ tr2) = slept tr1 + slept tr2.
Proof.
  induction tr1 as [|e tr1 IH]; [done|].
  destruct e; simpl; rewrite ?IH; lia.
Qed.

Lemma count_call_seq i (g : nat -> Z * Z * Z * Z * Z) k : forall s,
  count (is_call_to i)
    ((fun j => let '(a, b, c, d, e) := g j in
               ReportGoStatsCall j a b c d e) <$> seq s k) =
  (if decide (s <= i < s + k)%nat then 1 else 0)%nat.
Proof.
  induction k as [|k IH]; intros s; simpl.
  - case_decide; [lia|done].
  - destruct (g s) as [[[[a b] c] d] e] eqn:Hg.
    unfold count in *. simpl.
    destruct (Nat.eqb_spec i s) as [->|Hne].
    + rewrite filter_cons_True by (simpl; apply Nat.eqb_refl).
      simpl. rewrite IH. repeat case_decide; lia.
    + rewrite filter_cons_False
        by (simpl; intros H; apply Nat.eqb_eq in H; done).
      rewrite IH. repeat case_decide; lia.
Qed.

Lemma sample_calls_count i k rt :
  count (is_call_to i) (sample_calls k rt) =
  (if decide (i < k)%nat then 1 else 0)%nat.
Proof.
  unfold sample_calls.
  pose proof (count_call_seq i
                (fun _ => (NumGoroutine rt, Alloc (ReadMemStats rt),
                           HeapObjects (ReadMemStats rt),
                           NextGC (ReadMemStats rt),
                           index (PauseNs (ReadMemStats rt))
                             ((NumGC (ReadMemStats rt) + 255) mod 256)))
                k 0%nat) as H.
  simpl in H. rewrite H. repeat case_decide; lia.
Qed.

Lemma sample_calls_slept k rt : slept (sample_calls k rt) = 0.
Proof.
  unfold sample_calls. generalize 0%nat.
  induction k as [|k IH]; intros s; simpl; [done|apply IH].
Qed.

Lemma sample_calls_length k rt : length (sample_calls k rt) = k.
Proof. unfold sample_calls. by rewrite length_fmap, length_seq. Qed.

Lemma iterations_S k rt n fuel :
  iterations k rt n (S fuel) =
  sample_calls k (rt n) ++ [Sleep (30 * Second)] ++
  iterations k rt (S n) fuel.
Proof. unfold iterations. simpl. by rewrite <- app_assoc. Qed.

Lemma reportGoStats_from_no_sinks rt fuel : forall n st,
  elems (StatsReporters (this st)) = [] ->
  reportGoStats_from fuel n rt st =
    (Looping,
     {| this := this st; world := world st; pending := pending st;
        trace := trace st ++ replicate fuel (Sleep (30 * Second)) |}).
Proof.
  induction fuel as [|fuel IH]; intros n st Hnone.
  - cbn. rewrite app_nil_r. by destruct st.
  - cbn [reportGoStats_from]. unfold bind at 1.
    rewrite reportGoStats_body_spec. cbv zeta.
    rewrite IH by done. simpl. rewrite Hnone. simpl.
    by rewrite <- app_assoc.
Qed.

(** A counter in the world that the sink at position [i] advances by
    one at each call and that the other sinks leave alone: one round of
    calls advances it by one, and [fuel] iterations by [fuel]. *)
Lemma delivered_counts (calls : W -> nat) a b c d e rs : forall i w,
  (forall j r a b c d e w,
     rs !! j = Some r ->
     calls (ReportGoStats r a b c d e w) =
     if decide (j = i) then S (calls w) else calls w) ->
  calls (delivered rs a b c d e w) =
  if decide (i < length rs)%nat then S (calls w) else calls w.
Proof.
  unfold delivered.
  induction rs as [|r rs IH]; intros i w Hcalls.
  - simpl. destruct (decide (i < 0)%nat); [lia|done].
  - change (fold_left _ (r :: rs) w)
      with (fold_left
              (fun w r => ReportGoStats r a b c d e w) rs
              (ReportGoStats r a b c d e w)).
    pose proof (Hcalls 0%nat r a b c d e w eq_refl) as Hhead.
    destruct i as [|i].
    + rewrite (IH (length rs)).
      * destruct (decide (length rs < length rs)%nat); [lia|].
        destruct (decide (0 = 0)%nat); [|done].
        destruct (decide (0 < length (r :: rs))%nat); [done|].
        simpl in *. lia.
      * intros j r' a' b' c' d' e' w' Hj.
        rewrite (Hcalls (S j) r') by done.
        apply lookup_lt_Some in Hj.
        destruct (decide (S j = 0)%nat); [lia|].
        destruct (decide (j = length rs)); [lia|done].
    + rewrite (IH i).
      * destruct (decide (0 = S i)%nat); [lia|]. rewrite Hhead.
        simpl length.
        destruct (decide (i < length rs)%nat),
                 (decide (S i < S (length rs))%nat); try lia; done.
      * intros j r' a' b' c' d' e' w' Hj.
        rewrite (Hcalls (S j) r') by done.
        destruct (decide (S j = S i)), (decide (j = i)); try lia; done.
Qed.

Lemma ran_counts (calls : W -> nat) rs rt i fuel : forall n w,
  (forall j r a b c d e w,
     rs !! j = Some r ->
     calls (ReportGoStats r a b c d e w) =
     if decide (j = i) then S (calls w) else calls w) ->
  (i < length rs)%nat ->
  calls (ran rs rt n fuel w) = (calls w + fuel)%nat.
Proof.
  induction fuel as [|fuel IH]; intros n w Hcalls Hi; simpl; [lia|].
  rewrite IH by done.
  rewrite (delivered_counts calls _ _ _ _ _ rs i) by done.
  destruct (decide (i < length rs)%nat); lia.
Qed.

Lemma iterations_totals k rt n : forall s,
  (forall i, (i < k)%nat ->
     count (is_call_to i) (iterations k rt s n) = n) /\
  (forall i, (k <= i)%nat ->
     count (is_call_to i) (iterations k rt s n) = 0%nat) /\
  slept (iterations k rt s n) = Z.of_nat n * (30 * Second) /\
  length (iterations k rt s n) = (n * (k + 1))%nat.
Proof.
  induction n as [|n IH]; intros s.
  - repeat split; intros; reflexivity.
  - destruct (IH (S s)) as (Hin & Hout & Hslept & Hlen).
    rewrite iterations_S.
    repeat split.
    + intros i Hi. rewrite !count_app, sample_calls_count, Hin by done.
      case_decide; [reflexivity|lia].
    + intros i Hi. rewrite !count_app, sample_calls_count, Hout by done.
      case_decide; [lia|reflexivity].
    + rewrite !slept_app, sample_calls_slept, Hslept. simpl slept.
      lia.
    + rewrite !length_app, sample_calls_length, Hlen. simpl. lia.
Qed.

End StatsCounting.

(** X8: what [n] iterations of the stats loop amount to.  The world is
    the one the sinks leave after each was handed the [n] samples in
    turn; so a counter that one configured sink advances at each of its
    calls, and that the other sinks leave alone, has advanced by [n]:
    every configured sink has been called exactly [n] times.  The trace
    agrees: [n] calls for each configured position, none for any other,
    [n] sleeps of 30 seconds, and nothing else. *)
Theorem every_sink_gets_one_sample_per_iteration {W}
    (n : nat) (rt : nat -> Runtime) (st : St W) :
  let sinks := elems (StatsReporters (this st)) in
  let k := length sinks in
  let st' := snd (reportGoStats n rt st) in
  let tr := emitted st st' in
  world st' = ran sinks rt 0 n (world st) /\
  (forall i (calls : W -> nat),
     (i < k)%nat ->
     (forall j r a b c d e w,
        sinks !! j = Some r ->
        calls (ReportGoStats r a b c d e w) =
        if decide (j = i) then S (calls w) else calls w) ->
     calls (world st') = (calls (world st) + n)%nat) /\
  (forall i, (i < k)%nat -> count (is_call_to i) tr = n) /\
  (forall i, (k <= i)%nat -> count (is_call_to i) tr = 0%nat) /\
  slept tr = Z.of_nat n * (30 * Second) /\
  length tr = (n * (k + 1))%nat.
Proof.
  intros sinks k st' tr. subst st' tr. unfold reportGoStats.
  rewrite reportGoStats_from_world. simpl.
  erewrite emitted_app; [|simpl; reflexivity].
  split; [done|]. split.
  - intros i calls Hi Hcalls. by apply (ran_counts calls _ _ i).
  - apply iterations_totals.
Qed.

(** The sink [statsd] of the fixture, counted by what it has written:
    three iterations, three writes. *)
Lemma every_sink_gets_one_sample_per_iteration_witness :
  length
    (filter (fun name => String.eqb name "statsd" = true)
       (Fixtures.Sent
          (world
             (snd (reportGoStats 3
                     (fun n =>
                        {| NumGoroutine := 8 + Z.of_nat n;
                           ReadMemStats :=
                             {| Alloc := 4096; HeapObjects := 12;
                                NextGC := 8192; NumGC := 2;
                                PauseNs := replicate 256 0 |} |})
                     (Fixtures.state (Fixtures.pusher 10) [])))))) =
  3%nat.
Proof.
  refine (proj1 (proj2 (every_sink_gets_one_sample_per_iteration 3
            (fun n =>
               {| NumGoroutine := 8 + Z.of_nat n;
                  ReadMemStats :=
                    {| Alloc := 4096; HeapObjects := 12;
                       NextGC := 8192; NumGC := 2;
                       PauseNs := replicate 256 0 |} |})
            (Fixtures.state (Fixtures.pusher 10) [])))
            0%nat
            (fun w =>
               length (filter (fun name => String.eqb name "statsd" = true)
                         (Fixtures.Sent w)))
            _ _).
  - simpl. lia.
  - intros [|[|j]] r a b c d e w Hr; simpl in Hr;
      [injection Hr as <- | injection Hr as <- | discriminate];
      simpl; rewrite filter_app, length_app; simpl; lia.
Defined.

(** X9: with no stats sink configured, a nil slice or an empty one, the
    stats loop still runs: each iteration only sleeps 30 seconds, and
    the world outside is left as it was. *)
Theorem reportGoStats_without_sinks {W}
    (n : nat) (rt : nat -> Runtime) (st : St W) :
  elems (StatsReporters (this st)) = [] ->
  exists st',
    reportGoStats n rt st = (Looping, st') /\
    world st' = world st /\
    emitted st st' = replicate n (Sleep (30 * Second)).
Proof.
  intros Hnone. unfold reportGoStats.
  rewrite reportGoStats_from_no_sinks by done.
  eexists. split; [reflexivity|]. split; [done|].
  by erewrite emitted_app; [|simpl; reflexivity].
Qed.

Lemma reportGoStats_without_sinks_witness :
  exists st',
    reportGoStats 2
      (fun _ =>
         {| NumGoroutine := 8;
            ReadMemStats :=
              {| Alloc := 4096; HeapObjects := 12; NextGC := 8192;
                 NumGC := 2; PauseNs := replicate 256 0 |} |})
      (Fixtures.state
         (set_StatsReporters nil_slice (Fixtures.pusher 10)) []) =
      (Looping, st') /\
    world st' = Fixtures.db ("SELECT 1", []) None /\
    emitted (Fixtures.state
               (set_StatsReporters nil_slice (Fixtures.pusher 10)) [])
            st' = [Sleep (30 * Second); Sleep (30 * Second)].
Proof.
  exact (reportGoStats_without_sinks 2
           (fun _ =>
              {| NumGoroutine := 8;
                 ReadMemStats :=
                   {| Alloc := 4096; HeapObjects := 12; NextGC := 8192;
                      NumGC := 2; PauseNs := replicate 256 0 |} |})
           (Fixtures.state
              (set_StatsReporters nil_slice (Fixtures.pusher 10)) [])
           eq_refl).
Defined.

(** ** The defaults *)

(** X11: [loadConfigurationDefaults] sets one default and nothing else.
    On a struct without configuration it panics.  Otherwise the key
    [gracefulShutdownTimeout], in any spelling that folds to the same
    lower-case key, reads as its configured value, and as 10 when it is
    not configured; every key that folds to another lower-case key
    reads as before; calling the method again changes nothing; and
    nothing is emitted. *)
Theorem loadConfigurationDefaults_sets_one_default {W}
    (env : Env W) (st : St W) :
  match Config (this st) with
  | None => loadConfigurationDefaults env st = (Panicked, st)
  | Some c =>
      exists st' c',
        loadConfigurationDefaults env st = (Returned tt, st') /\
        Config (this st') = Some c' /\
        (forall key,
           ToLower env key = ToLower env "gracefulShutdownTimeout" ->
           Viper.GetInt (ToLower env) key c' =
             match Viper.settings c
                     !! ToLower env "gracefulShutdownTimeout" with
             | Some v => int_val v
             | None => 10
             end) /\
        (forall key,
           ToLower env key <> ToLower env "gracefulShutdownTimeout" ->
           Viper.GetInt (ToLower env) key c' =
           Viper.GetInt (ToLower env) key c) /\
        loadConfigurationDefaults env st' = (Returned tt, st') /\
        trace st' = trace st
  end.
Proof.
  unfold loadConfigurationDefaults, bind, get_this, deref, modify_this.
  destruct (Config (this st)) as [c|] eqn:Hc; simpl; [|reflexivity].
  eexists _, _.
  split; [reflexivity|]. simpl. split; [reflexivity|].
  unfold Viper.GetInt, Viper.SetDefault. simpl.
  split; [|split; [|split; [|done]]].
  - intros key ->.
    destruct (Viper.settings c !! _); [done|]. by rewrite lookup_insert_eq.
  - intros key Hkey. by rewrite lookup_insert_ne.
  - by rewrite insert_insert_eq.
Qed.

(** The default is read under another spelling of the key, and a key
    of the configuration file is read as before. *)
Lemma loadConfigurationDefaults_sets_one_default_witness :
  exists st' c',
    loadConfigurationDefaults (Fixtures.env Fixtures.emptyConfig None)
      (Fixtures.state
         (set_Config
            (Some {| Viper.settings :=
                       {["workers" := {| int_val := 4; int_ok := eq_refl |}]};
                     Viper.defaults := ∅ |})
            (Fixtures.pusher 0)) []) = (Returned tt, st') /\
    Config (this st') = Some c' /\
    Viper.GetInt Fixtures.toLower "GracefulShutdownTimeout" c' = 10 /\
    Viper.GetInt Fixtures.toLower "Workers" c' = 4.
Proof.
  pose proof (loadConfigurationDefaults_sets_one_default
                (Fixtures.env Fixtures.emptyConfig None)
                (Fixtures.state
                   (set_Config
                      (Some {| Viper.settings :=
                                 {["workers" :=
                                     {| int_val := 4; int_ok := eq_refl |}]};
                               Viper.defaults := ∅ |})
                      (Fixtures.pusher 0)) [])) as H.
  simpl in H.
  destruct H as (st' & c' & Hrun & Hc & Hkey & Hother & _).
  exists st', c'. split; [exact Hrun|]. split; [exact Hc|]. split.
  - rewrite (Hkey "GracefulShutdownTimeout" eq_refl).
    vm_compute. reflexivity.
  - rewrite (Hother "Workers"); [vm_compute; reflexivity | discriminate].
Defined.
